(** * A shallow embedding of the Grafana API client (package gapi)

    The embedded sources are [annotation.go] and [orgs.go].  Every exported
    operation in these files follows the same shape: marshal an optional
    JSON body, build a request with [c.newRequest], send it with [c.Do],
    compare the status code with 200, read the body and unmarshal it.

    The operations are written as programs of a small free monad whose
    calls are the effects the sources perform ([newRequest], [Do],
    [ioutil.ReadAll], [DataSourcesByOrgId]) and the one they could perform
    on the client, a store through the pointer.  Running a program against a handler for the calls
    yields the returned value, the final world and the trace of the calls
    made, so that statements such as "no request is issued" or "the body is
    not read" are statements about the trace. *)

From Stdlib Require Import ZArith String Ascii DecimalString DecimalPos DecimalZ
  Strings.Byte.
From stdpp Require Import base option list gmap strings.

Local Open Scope string_scope.
Local Open Scope Z_scope.

(** ** Go values *)

(** A byte slice, [[]byte]. *)
Definition bytes := list byte.

(** A Go slice is either [nil] or a (possibly empty) sequence.  Capacity and
    aliasing play no role in the embedded code. *)
Definition slice (A : Type) : Type := option (list A).

Definition elems {A} (s : slice A) : list A :=
  match s with
  | Some l => l
  | None => []
  end.

(** [append(s, x)]: the result is never nil. *)
Definition append {A} (s : slice A) (x : A) : slice A := Some (elems s ++ [x])%list.

(** A non-nil [error] value carries its message, the result of [Error()]. *)
Inductive goerror : Type := errorString (msg : string).

Definition Error (e : goerror) : string :=
  match e with errorString msg => msg end.

(** The interface type [error]; [None] is [nil]. *)
Definition error : Type := option goerror.

Definition errors_New (text : string) : error := Some (errorString text).

(** [fmt.Errorf] applied to an already formatted message. *)
Definition fmt_Errorf (formatted : string) : error := Some (errorString formatted).

(** The verb [%d] (and [%v]) of package fmt on an [int64]. *)
Definition itoa (n : Z) : string := NilZero.string_of_int (Z.to_int n).

(** [url.Values], a map from keys to lists of values.  The nil map and the
    empty map are both [∅]. *)
Definition Values : Type := gmap string (list string).

(** An [io.Reader] handed to [newRequest]: [None] is the nil reader,
    [Some data] a buffer over [data] ([bytes.NewBuffer], [bytes.NewReader]). *)
Definition Reader : Type := option bytes.

(** ** Resource records *)

Record Annotation := {
  ID : Z;
  AlertID : Z;
  DashboardID : Z;
  PanelID : Z;
  UserID : Z;
  UserName : string;
  NewState : string;
  PrevState : string;
  Time : Z;
  TimeEnd : Z;
  Text : string;
  Metric : string;
  RegionID : Z;
  Type_ : string;
  Tags : slice string;
  IsRegion : bool
}.

(** [Annotation{}] *)
Definition Annotation_zero : Annotation :=
  {| ID := 0; AlertID := 0; DashboardID := 0; PanelID := 0; UserID := 0;
     UserName := ""; NewState := ""; PrevState := ""; Time := 0; TimeEnd := 0;
     Text := ""; Metric := ""; RegionID := 0; Type_ := ""; Tags := None;
     IsRegion := false |}.

Record GraphiteAnnotation := {
  What : string;
  When : Z;
  Data : string;
  GraphiteTags : slice string
}.

Definition OrgUserRoleViewer : string := "Viewer".
Definition OrgUserRoleAdmin : string := "Admin".
Definition OrgUserRoleEditor : string := "Editor".

(** [OrgUser] embeds [User], a struct declared outside the two embedded
    files; it is a type parameter here. *)
Record OrgUser (User : Type) := {
  OrgUser_User : User;
  Role : string;
  OrgID : Z
}.
Arguments OrgUser_User {User} _.
Arguments Role {User} _.
Arguments OrgID {User} _.

Definition OrgUsers (User : Type) : Type := slice (OrgUser User).

Record Org := {
  Id : Z;
  Name : string
}.

(** [Org{}] *)
Definition Org_zero : Org := {| Id := 0; Name := "" |}.

(** The anonymous structs the responses are decoded into. *)
Record idResult := { result_ID : Z }.                (* struct{ID int64 `json:"id"`} *)
Record messageResult := { result_Message : string }. (* struct{Message string `json:"message"`} *)
Record orgIdBody := { body_ID : Z }.                 (* struct{ID int64 `json:"orgId"`} *)

(** ** The client and HTTP messages *)

Inductive Credential : Type :=
| APIKey (key : string)
| BasicAuth (user password : string).

(** Modelled from the spec: the [Client] struct is declared in client.go,
    which is not among the embedded files.  The spec's data model gives it
    a base URL, an authentication credential and transport settings. *)
Record Client := {
  baseURL : string;
  credential : Credential;
  transport : gmap string string
}.

(** A pointer is an address: a [*Client] is an address in the store of
    client objects; the [*Dashboard] and [*DataSource] of the result slices
    are addresses of objects the embedded code never looks into. *)
Definition ptr : Type := positive.

(** [http.Request], as far as the executor contract of the spec describes
    it: verb, absolute URL, query parameters, authentication and body. *)
Record Request := {
  Method : string;
  URL : string;
  Query : Values;
  Authorization : Credential;
  RequestBody : Reader
}.

(** The body of a response is a stream: reading it to the end yields the
    bytes received and the error, if any, that ended the stream. *)
Record ReadCloser := {
  received : bytes;
  readErr : error
}.

(** [http.Response] *)
Record Response := {
  Status : string;
  StatusCode : Z;
  Body : ReadCloser
}.

(** ** Effects

    The calls a method of this package can make.  [newRequest] and [Do] are
    methods of [*Client] defined outside the embedded files, so their
    behaviour is left to a handler.  orgs.go calls [newRequest] without query
    parameters; such calls carry the empty [Values].  [DataSourcesByOrgId]
    is the method of datasource.go that [Org.DataSources] forwards to.
    [Store] is an assignment through a [*Client], [*c = v]: it is what a
    method would have to do to change the configuration, and whether the
    embedded operations do it is a property to be proved about them. *)
Inductive call : Type -> Type :=
| newRequest (c : ptr) (method path : string) (query : Values) (body : Reader)
    : call (Request * error)
| Do (c : ptr) (req : Request) : call (Response * error)
| ReadAll (r : ReadCloser) : call (bytes * error)
| DataSourcesByOrgId (c : ptr) (id : Z) : call (slice ptr * error)
| Store (c : ptr) (v : Client) : call unit.

Inductive prog (A : Type) : Type :=
| Ret (a : A)
| Call {X : Type} (e : call X) (k : X -> prog A).
Arguments Ret {A} a.
Arguments Call {A X} e k.

Fixpoint bind {A B} (p : prog A) (f : A -> prog B) : prog B :=
  match p with
  | Ret a => f a
  | Call e k => Call e (fun x => bind (k x) f)
  end.

#[global] Instance prog_ret : MRet prog := @Ret.
#[global] Instance prog_bind : MBind prog := fun A B f p => bind p f.

Definition perform {X} (e : call X) : prog X := Call e Ret.

(** [if err != nil { return v }] followed by the rest of the function. *)
Notation "'if_err' err 'return_' v ';;' k" :=
  (match err with Some _ => Ret v | None => k end)
  (at level 10, err at level 9, v at level 9, k at level 200,
   format "'[v' 'if_err'  err  'return_'  v ';;' '/' k ']'").

(** One entry of the trace per call, with what the call returned. *)
Inductive event : Type :=
| EvNewRequest (c : ptr) (method path : string) (query : Values) (body : Reader)
    (req : Request) (err : error)
| EvDo (c : ptr) (req : Request) (resp : Response) (err : error)
| EvReadAll (r : ReadCloser) (data : bytes) (err : error)
| EvDataSourcesByOrgId (c : ptr) (id : Z) (sources : slice ptr) (err : error)
| EvStore (c : ptr) (v : Client).

(** The world a program runs in: the client objects and the remote side. *)
Record World (Net : Type) := {
  clients : gmap ptr Client;
  net : Net
}.
Arguments clients {Net} _.
Arguments net {Net} _.

Record Handler (Net : Type) := {
  on_newRequest : ptr -> string -> string -> Values -> Reader ->
                  World Net -> (Request * error) * World Net;
  on_Do : ptr -> Request -> World Net -> (Response * error) * World Net;
  on_DataSourcesByOrgId : ptr -> Z -> World Net -> (slice ptr * error) * World Net
}.
Arguments on_newRequest {Net} _.
Arguments on_Do {Net} _.
Arguments on_DataSourcesByOrgId {Net} _.

Definition handle {Net X} (h : Handler Net) (e : call X) (w : World Net)
  : X * World Net * event :=
  match e in call X return X * World Net * event with
  | newRequest c method path query body =>
      let '(r, w') := on_newRequest h c method path query body w in
      (r, w', EvNewRequest c method path query body (fst r) (snd r))
  | Do c req =>
      let '(r, w') := on_Do h c req w in
      (r, w', EvDo c req (fst r) (snd r))
  | ReadAll r =>
      ((received r, readErr r), w, EvReadAll r (received r) (readErr r))
  | DataSourcesByOrgId c id =>
      let '(r, w') := on_DataSourcesByOrgId h c id w in
      (r, w', EvDataSourcesByOrgId c id (fst r) (snd r))
  | Store c v =>
      (tt, {| clients := <[c := v]> (clients w); net := net w |}, EvStore c v)
  end.

Fixpoint run {Net A} (h : Handler Net) (p : prog A) (w : World Net)
  : A * World Net * list event :=
  match p with
  | Ret a => (a, w, [])
  | Call e k =>
      let '(x, w1, ev) := handle h e w in
      let '(a, w2, t) := run h (k x) w1 in
      (a, w2, ev :: t)
  end.

Definition result {Net A} (o : A * World Net * list event) : A := o.1.1.
Definition final {Net A} (o : A * World Net * list event) : World Net := o.1.2.
Definition trace {Net A} (o : A * World Net * list event) : list event := o.2.

(** ** encoding/json

    [json.Marshal] and [json.Unmarshal] at the types the embedded code uses
    them at.  [Unmarshal] updates the value it is given a pointer to and
    returns an error; here it takes the old value and returns the new one
    with the error. *)
Class JSON (User : Type) := {
  Marshal_Annotation : option Annotation -> bytes * error;
  Marshal_GraphiteAnnotation : option GraphiteAnnotation -> bytes * error;
  Marshal_StringMap : gmap string string -> bytes * error;
  Marshal_Org : Org -> bytes * error;
  Unmarshal_Annotations : bytes -> slice Annotation -> slice Annotation * error;
  Unmarshal_idResult : bytes -> idResult -> idResult * error;
  Unmarshal_messageResult : bytes -> messageResult -> messageResult * error;
  Unmarshal_OrgUsers : bytes -> slice (OrgUser User) -> slice (OrgUser User) * error;
  Unmarshal_Org : bytes -> Org -> Org * error;
  Unmarshal_Orgs : bytes -> slice Org -> slice Org * error;
  Unmarshal_orgIdBody : bytes -> orgIdBody -> orgIdBody * error
}.

(** ** annotation.go *)

Module Client.
Section Operations.
Context {User : Type} `{!JSON User}.

(** Annotations fetches the annotations queried with the params it's passed *)
Definition Annotations (c : ptr) (params : Values) : prog (slice Annotation * error) :=
  '(req, err) ← perform (newRequest c "GET" "/api/annotation" params None);
  if_err err return_ (None, err) ;;
  '(resp, err) ← perform (Do c req);
  if_err err return_ (None, err) ;;
  if negb (StatusCode resp =? 200) then Ret (None, errors_New (Status resp)) else
  '(data, err) ← perform (ReadAll (Body resp));
  if_err err return_ (None, err) ;;
  let result := Some [] in
  let '(result, err) := Unmarshal_Annotations data result in
  Ret (result, err).

(** The loop [for _, a := range as { if a.ID == id { return a, nil } }],
    followed by the statements after it. *)
Fixpoint Annotation_range (as_ : list Annotation) (id : Z)
    (after : prog (Annotation * error)) : prog (Annotation * error) :=
  match as_ with
  | [] => after
  | a :: rest =>
      if ID a =? id then Ret (a, None) else Annotation_range rest id after
  end.

(** NewAnnotation creates a new annotation with the Annotation it is passed *)
Definition NewAnnotation (c : ptr) (a : option Annotation) : prog (Z * error) :=
  let '(data, err) := Marshal_Annotation a in
  if_err err return_ (0, err) ;;
  '(req, err) ← perform (newRequest c "POST" "/api/annotations" ∅ (Some data));
  if_err err return_ (0, err) ;;
  '(resp, err) ← perform (Do c req);
  if_err err return_ (0, err) ;;
  if negb (StatusCode resp =? 200) then Ret (0, errors_New (Status resp)) else
  '(data, err) ← perform (ReadAll (Body resp));
  if_err err return_ (0, err) ;;
  let result := {| result_ID := 0 |} in
  let '(result, err) := Unmarshal_idResult data result in
  Ret (result_ID result, err).

(** NewGraphiteAnnotation creates a new annotation with the
    GraphiteAnnotation it is passed *)
Definition NewGraphiteAnnotation (c : ptr) (gfa : option GraphiteAnnotation)
    : prog (Z * error) :=
  let '(data, err) := Marshal_GraphiteAnnotation gfa in
  if_err err return_ (0, err) ;;
  '(req, err) ← perform (newRequest c "POST" "/api/annotations/graphite" ∅ (Some data));
  if_err err return_ (0, err) ;;
  '(resp, err) ← perform (Do c req);
  if_err err return_ (0, err) ;;
  if negb (StatusCode resp =? 200) then Ret (0, errors_New (Status resp)) else
  '(data, err) ← perform (ReadAll (Body resp));
  if_err err return_ (0, err) ;;
  let result := {| result_ID := 0 |} in
  let '(result, err) := Unmarshal_idResult data result in
  Ret (result_ID result, err).

(** UpdateAnnotation updates all properties an existing annotation with
    the Annotation it is passed. *)
Definition UpdateAnnotation (c : ptr) (id : Z) (a : option Annotation)
    : prog (string * error) :=
  let path := "/api/annotations/" +:+ itoa id in
  let '(data, err) := Marshal_Annotation a in
  if_err err return_ ("", err) ;;
  '(req, err) ← perform (newRequest c "PUT" path ∅ (Some data));
  if_err err return_ ("", err) ;;
  '(resp, err) ← perform (Do c req);
  if_err err return_ ("", err) ;;
  if negb (StatusCode resp =? 200) then Ret ("", errors_New (Status resp)) else
  '(data, err) ← perform (ReadAll (Body resp));
  if_err err return_ ("", err) ;;
  let result := {| result_Message := "" |} in
  let '(result, err) := Unmarshal_messageResult data result in
  Ret (result_Message result, err).

(** PatchAnnotation updates one or more properties of an existing
    annotation that matches the specified ID. *)
Definition PatchAnnotation (c : ptr) (id : Z) (a : option Annotation)
    : prog (string * error) :=
  let path := "/api/annotations/" +:+ itoa id in
  let '(data, err) := Marshal_Annotation a in
  if_err err return_ ("", err) ;;
  '(req, err) ← perform (newRequest c "PATCH" path ∅ (Some data));
  if_err err return_ ("", err) ;;
  '(resp, err) ← perform (Do c req);
  if_err err return_ ("", err) ;;
  if negb (StatusCode resp =? 200) then Ret ("", errors_New (Status resp)) else
  '(data, err) ← perform (ReadAll (Body resp));
  if_err err return_ ("", err) ;;
  let result := {| result_Message := "" |} in
  let '(result, err) := Unmarshal_messageResult data result in
  Ret (result_Message result, err).

(** DeleteAnnotation deletes the annotation of the ID it is passed *)
Definition DeleteAnnotation (c : ptr) (id : Z) : prog (string * error) :=
  let path := "/api/annotations/" +:+ itoa id in
  '(req, err) ← perform (newRequest c "DELETE" path ∅ (Some []));
  if_err err return_ ("", err) ;;
  '(resp, err) ← perform (Do c req);
  if_err err return_ ("", err) ;;
  if negb (StatusCode resp =? 200) then Ret ("", errors_New (Status resp)) else
  '(data, err) ← perform (ReadAll (Body resp));
  if_err err return_ ("", err) ;;
  let result := {| result_Message := "" |} in
  let '(result, err) := Unmarshal_messageResult data result in
  Ret (result_Message result, err).

(** DeleteAnnotationByRegionID deletes the annotation corresponding to
    the region ID it is passed *)
Definition DeleteAnnotationByRegionID (c : ptr) (id : Z) : prog (string * error) :=
  let path := "/api/annotations/region/" +:+ itoa id in
  '(req, err) ← perform (newRequest c "DELETE" path ∅ (Some []));
  if_err err return_ ("", err) ;;
  '(resp, err) ← perform (Do c req);
  if_err err return_ ("", err) ;;
  if negb (StatusCode resp =? 200) then Ret ("", errors_New (Status resp)) else
  '(data, err) ← perform (ReadAll (Body resp));
  if_err err return_ ("", err) ;;
  let result := {| result_Message := "" |} in
  let '(result, err) := Unmarshal_messageResult data result in
  Ret (result_Message result, err).

(** *** orgs.go, methods of [*Client] *)

(** OrgByName returns the organisation with the given name *)
Definition OrgByName (c : ptr) (name : string) : prog (Org * error) :=
  let org := Org_zero in
  '(req, err) ← perform (newRequest c "GET" ("/api/orgs/name/" +:+ name) ∅ None);
  if_err err return_ (org, err) ;;
  '(resp, err) ← perform (Do c req);
  if_err err return_ (org, err) ;;
  if negb (StatusCode resp =? 200) then Ret (org, errors_New (Status resp)) else
  '(data, err) ← perform (ReadAll (Body resp));
  if_err err return_ (org, err) ;;
  let '(org, err) := Unmarshal_Org data org in
  Ret (org, err).

(** Orgs returns all the orgs in Grafana *)
Definition Orgs (c : ptr) : prog (slice Org * error) :=
  let orgs : slice Org := Some [] in
  '(req, err) ← perform (newRequest c "GET" "/api/orgs/" ∅ None);
  if_err err return_ (orgs, err) ;;
  '(resp, err) ← perform (Do c req);
  if_err err return_ (orgs, err) ;;
  if negb (StatusCode resp =? 200) then Ret (orgs, errors_New (Status resp)) else
  '(data, err) ← perform (ReadAll (Body resp));
  if_err err return_ (orgs, err) ;;
  let '(orgs, err) := Unmarshal_Orgs data orgs in
  Ret (orgs, err).

(** NewOrg creates an Org with the given name in Grafana.  The second
    [err] of the source reuses the variable of the first, so the result of
    [json.Marshal] is overwritten unread; the result of [json.Unmarshal]
    is not bound at all. *)
Definition NewOrg (c : ptr) (name : string) : prog (Org * error) :=
  let org := {| Id := 0; Name := name |} in
  let '(data, err) := Marshal_Org org in
  '(req, err) ← perform (newRequest c "POST" "/api/orgs" ∅ (Some data));
  if_err err return_ (org, err) ;;
  '(resp, err) ← perform (Do c req);
  if_err err return_ (org, err) ;;
  if negb (StatusCode resp =? 200) then Ret (org, errors_New (Status resp)) else
  let body := {| body_ID := 0 |} in
  '(data, err) ← perform (ReadAll (Body resp));
  let '(body, _) := Unmarshal_orgIdBody data body in
  let org := {| Id := body_ID body; Name := Name org |} in
  Ret (org, err).

(** DeleteOrg deletes the given org ID from Grafana *)
Definition DeleteOrg (c : ptr) (id : Z) : prog error :=
  '(req, err) ← perform (newRequest c "DELETE" ("/api/orgs/" +:+ itoa id) ∅ None);
  if_err err return_ err ;;
  '(resp, err) ← perform (Do c req);
  if_err err return_ err ;;
  if negb (StatusCode resp =? 200) then Ret (errors_New (Status resp)) else
  Ret err.

(** Annotation fetches the annotation queried with the ID and params it's
    passed.  It returns an error if no annotation with a matching ID is
    found.  (Declared after the other
    annotation methods: from here on [Annotation] names the method.) *)
Definition Annotation (c : ptr) (id : Z) (params : Values) : prog (Annotation * error) :=
  '(as_, err) ← Annotations c params;
  if_err err return_ (Annotation_zero, err) ;;
  Annotation_range (elems as_) id
    (Ret (Annotation_zero, fmt_Errorf ("annotation " +:+ itoa id +:+ " not found"))).

(** Org returns the organisation with the given ID.  (Declared last in
    this module: from here on [Org] names the method.) *)
Definition Org (c : ptr) (id : Z) : prog (Org * error) :=
  let org := Org_zero in
  '(req, err) ← perform (newRequest c "GET" ("/api/orgs/" +:+ itoa id) ∅ None);
  if_err err return_ (org, err) ;;
  '(resp, err) ← perform (Do c req);
  if_err err return_ (org, err) ;;
  if negb (StatusCode resp =? 200) then Ret (org, errors_New (Status resp)) else
  '(data, err) ← perform (ReadAll (Body resp));
  if_err err return_ (org, err) ;;
  let '(org, err) := Unmarshal_Org data org in
  Ret (org, err).
End Operations.
End Client.

(** ** orgs.go, methods of [OrgUsers] and [Org] *)

Module OrgUsers.
Definition Users {User : Type} (ousers : OrgUsers User) : slice User :=
  let users : slice User := Some [] in
  fold_left (fun users ou => append users (OrgUser_User ou)) (elems ousers) users.
End OrgUsers.

Module Org.
Section Operations.
Context {User : Type} `{!JSON User}.

Definition String (o : Org) : string := Name o.

(** DataSources use the given client to return the datasources for the
    organisation *)
Definition DataSources (o : Org) (c : ptr) : prog (slice ptr * error) :=
  perform (DataSourcesByOrgId c (Id o)).

(** AddUser will add a user to the organisation *)
Definition AddUser (o : Org) (c : ptr) (username role : string) : prog error :=
  let validRole :=
    String.eqb role OrgUserRoleAdmin || String.eqb role OrgUserRoleEditor
    || String.eqb role OrgUserRoleViewer in
  if negb validRole then Ret (fmt_Errorf ("invalid role name: " +:+ role)) else
  let '(data, err) :=
    Marshal_StringMap {[ "role" := role; "loginOrEmail" := username ]} in
  if_err err return_ err ;;
  '(req, err) ← perform (newRequest c "POST" ("/api/orgs/" +:+ itoa (Id o) +:+ "/users")
                           ∅ (Some data));
  if_err err return_ err ;;
  '(resp, err) ← perform (Do c req);
  if_err err return_ err ;;
  if negb (StatusCode resp =? 200) then Ret (errors_New (Status resp)) else
  '(_, err) ← perform (ReadAll (Body resp));
  Ret err.

(** Dashboards use the given client to return the dashboards for the
    organisation *)
Definition Dashboards (o : Org) (c : ptr) : prog (slice ptr * error) :=
  Ret (Some [], errors_New "not implemented").

(** Users use the given client to return the users for the organisation *)
Definition Users (o : Org) (c : ptr) : prog (slice (OrgUser User) * error) :=
  let ousers : slice (OrgUser User) := Some [] in
  '(req, err) ← perform (newRequest c "GET" ("/api/orgs/" +:+ itoa (Id o) +:+ "/users")
                           ∅ None);
  if_err err return_ (ousers, err) ;;
  '(resp, err) ← perform (Do c req);
  if_err err return_ (ousers, err) ;;
  if negb (StatusCode resp =? 200) then Ret (ousers, errors_New (Status resp)) else
  '(data, err) ← perform (ReadAll (Body resp));
  if_err err return_ (ousers, err) ;;
  let '(ousers, err) := Unmarshal_OrgUsers data ousers in
  Ret (ousers, err).

(** RemoveUser removes the user from the organisation *)
Definition RemoveUser (o : Org) (c : ptr) (userID : Z) : prog error :=
  '(req, err) ← perform (newRequest c "DELETE"
                           ("/api/orgs/" +:+ itoa (Id o) +:+ "/users/" +:+ itoa userID)
                           ∅ None);
  if_err err return_ err ;;
  '(resp, err) ← perform (Do c req);
  if_err err return_ err ;;
  if negb (StatusCode resp =? 200) then Ret (errors_New (Status resp)) else
  '(_, err) ← perform (ReadAll (Body resp));
  Ret err.
End Operations.
End Org.

(** ** The operations as one family

    [operation] names a call of any of the embedded operations with its
    arguments; [returns] is the Go result type of the call and [denote] its
    program. *)

Inductive operation : Type :=
| OpAnnotations (c : ptr) (params : Values)
| OpAnnotation (c : ptr) (id : Z) (params : Values)
| OpNewAnnotation (c : ptr) (a : option Annotation)
| OpNewGraphiteAnnotation (c : ptr) (gfa : option GraphiteAnnotation)
| OpUpdateAnnotation (c : ptr) (id : Z) (a : option Annotation)
| OpPatchAnnotation (c : ptr) (id : Z) (a : option Annotation)
| OpDeleteAnnotation (c : ptr) (id : Z)
| OpDeleteAnnotationByRegionID (c : ptr) (id : Z)
| OpOrgDataSources (o : Org) (c : ptr)
| OpOrgAddUser (o : Org) (c : ptr) (username role : string)
| OpOrgDashboards (o : Org) (c : ptr)
| OpOrgUsers (o : Org) (c : ptr)
| OpOrgRemoveUser (o : Org) (c : ptr) (userID : Z)
| OpOrg (c : ptr) (id : Z)
| OpOrgByName (c : ptr) (name : string)
| OpOrgs (c : ptr)
| OpNewOrg (c : ptr) (name : string)
| OpDeleteOrg (c : ptr) (id : Z).

Section Library.
Context {User : Type} `{!JSON User}.

Definition returns (o : operation) : Type :=
  match o with
  | OpAnnotations _ _ => slice Annotation * error
  | OpAnnotation _ _ _ => Annotation * error
  | OpNewAnnotation _ _ | OpNewGraphiteAnnotation _ _ => Z * error
  | OpUpdateAnnotation _ _ _ | OpPatchAnnotation _ _ _
  | OpDeleteAnnotation _ _ | OpDeleteAnnotationByRegionID _ _ => string * error
  | OpOrgAddUser _ _ _ _ | OpOrgRemoveUser _ _ _ | OpDeleteOrg _ _ => error
  | OpOrgDataSources _ _ | OpOrgDashboards _ _ => slice ptr * error
  | OpOrgUsers _ _ => slice (OrgUser User) * error
  | OpOrg _ _ | OpOrgByName _ _ | OpNewOrg _ _ => Org * error
  | OpOrgs _ => slice Org * error
  end%type.

Definition denote (o : operation) : prog (returns o) :=
  match o return prog (returns o) with
  | OpAnnotations c params => Client.Annotations c params
  | OpAnnotation c id params => Client.Annotation c id params
  | OpNewAnnotation c a => Client.NewAnnotation c a
  | OpNewGraphiteAnnotation c gfa => Client.NewGraphiteAnnotation c gfa
  | OpUpdateAnnotation c id a => Client.UpdateAnnotation c id a
  | OpPatchAnnotation c id a => Client.PatchAnnotation c id a
  | OpDeleteAnnotation c id => Client.DeleteAnnotation c id
  | OpDeleteAnnotationByRegionID c id => Client.DeleteAnnotationByRegionID c id
  | OpOrgDataSources o c => Org.DataSources o c
  | OpOrgAddUser o c username role => Org.AddUser o c username role
  | OpOrgDashboards o c => Org.Dashboards o c
  | OpOrgUsers o c => Org.Users o c
  | OpOrgRemoveUser o c userID => Org.RemoveUser o c userID
  | OpOrg c id => Client.Org c id
  | OpOrgByName c name => Client.OrgByName c name
  | OpOrgs c => Client.Orgs c
  | OpNewOrg c name => Client.NewOrg c name
  | OpDeleteOrg c id => Client.DeleteOrg c id
  end.

(** The error an operation returns, whatever else it returns with it. *)
Definition returned_error (o : operation) : returns o -> error :=
  match o return returns o -> error with
  | OpOrgAddUser _ _ _ _ | OpOrgRemoveUser _ _ _ | OpDeleteOrg _ _ => fun r => r
  | _ => fun r => r.2
  end.

(** The zero or empty value of the result type of [o], next to [err]:
    the nil or empty slice, [Annotation{}], 0, the empty string, [Org{}];
    for the operations that return only an error, [err] itself. *)
Definition zero_result (o : operation) (err : error) : returns o -> Prop :=
  match o return returns o -> Prop with
  | OpAnnotations _ _ => fun r => elems r.1 = [] ∧ r.2 = err
  | OpAnnotation _ _ _ => fun r => r = (Annotation_zero, err)
  | OpNewAnnotation _ _ | OpNewGraphiteAnnotation _ _ => fun r => r = (0, err)
  | OpUpdateAnnotation _ _ _ | OpPatchAnnotation _ _ _
  | OpDeleteAnnotation _ _ | OpDeleteAnnotationByRegionID _ _ =>
      fun r => r = ("", err)
  | OpOrgAddUser _ _ _ _ | OpOrgRemoveUser _ _ _ | OpDeleteOrg _ _ =>
      fun r => r = err
  | OpOrgDataSources _ _ | OpOrgDashboards _ _ =>
      fun r => elems r.1 = [] ∧ r.2 = err
  | OpOrgUsers _ _ => fun r => elems r.1 = [] ∧ r.2 = err
  | OpOrg _ _ | OpOrgByName _ _ | OpNewOrg _ _ => fun r => r = (Org_zero, err)
  | OpOrgs _ => fun r => elems r.1 = [] ∧ r.2 = err
  end.

(** What the operations return on a response whose status code is not
    200: [NewOrg] returns the record it built from its argument, the
    others the value fixed by the source.  ([DataSources] and [Dashboards]
    receive no response themselves.) *)
Definition status_failure (o : operation) (err : error) : returns o :=
  match o return returns o with
  | OpAnnotations _ _ => (None, err)
  | OpAnnotation _ _ _ => (Annotation_zero, err)
  | OpNewAnnotation _ _ | OpNewGraphiteAnnotation _ _ => (0, err)
  | OpUpdateAnnotation _ _ _ | OpPatchAnnotation _ _ _
  | OpDeleteAnnotation _ _ | OpDeleteAnnotationByRegionID _ _ => ("", err)
  | OpOrgAddUser _ _ _ _ | OpOrgRemoveUser _ _ _ | OpDeleteOrg _ _ => err
  | OpOrgDataSources _ _ => (None, err)
  | OpOrgDashboards _ _ => (Some [], err)
  | OpOrgUsers _ _ => (Some [], err)
  | OpOrg _ _ | OpOrgByName _ _ => (Org_zero, err)
  | OpNewOrg _ name => ({| Id := 0; Name := name |}, err)
  | OpOrgs _ => (Some [], err)
  end.
End Library.

(** ** A reader and writer for JSON text

    An executable instance of [JSON] for running the operations on concrete
    response bodies.  It follows encoding/json on the JSON the embedded
    code exchanges: a syntax error leaves the target untouched; [null]
    leaves a field untouched; a value of the wrong kind leaves its field
    untouched and the first such mismatch is the error returned, decoding
    going on; keys select fields without regard to ASCII case and unknown
    keys are skipped; of repeated keys the last one wins.  Error messages
    are abridged.  Not covered: [\u] escapes inside strings (reported as a
    syntax error here) and the escaping of bytes above 127 on output. *)

Module GoJSON.

#[local] Unset Elimination Schemes.
Inductive json : Type :=
| JNull
| JBool (b : bool)
| JNumber (literal : bytes)
| JString (s : string)
| JArray (items : list json)
| JObject (members : list (string * json)).
#[local] Set Elimination Schemes.

Definition is_space (b : byte) : bool :=
  match b with
  | x20 | x09 | x0a | x0d => true
  | _ => false
  end.

Definition is_digit (b : byte) : bool :=
  (48 <=? Z.of_N (Byte.to_N b)) && (Z.of_N (Byte.to_N b) <=? 57).

Fixpoint skip_space (s : bytes) : bytes :=
  match s with
  | b :: r => if is_space b then skip_space r else s
  | [] => []
  end.

Fixpoint span_digits (s : bytes) : bytes * bytes :=
  match s with
  | b :: r =>
      if is_digit b then let '(ds, rest) := span_digits r in (b :: ds, rest)
      else ([], s)
  | [] => ([], [])
  end.

(** [eat c s]: the rest of [s] when [s] starts with the byte [c]. *)
Definition eat (c : byte) (s : bytes) : option bytes :=
  match s with
  | b :: r => if Byte.eqb b c then Some r else None
  | [] => None
  end.

(** The byte denoted by the character after a backslash. *)
Definition unescape (e : byte) : option byte :=
  match e with
  | x22 => Some x22
  | x5c => Some x5c
  | x2f => Some x2f
  | x62 => Some x08
  | x66 => Some x0c
  | x6e => Some x0a
  | x72 => Some x0d
  | x74 => Some x09
  | _ => None
  end.

(** The characters of a string up to its closing quote. *)
Fixpoint scan_string (s : bytes) : option (list byte * bytes) :=
  let more (b : byte) (r : option (list byte * bytes)) :=
    '(cs, rest) ← r; Some (b :: cs, rest) in
  match s with
  | [] => None
  | b :: r =>
      if Byte.eqb b "034"%byte then Some ([], r)
      else if Byte.eqb b "\"%byte then
        match r with
        | e :: r' => c ← unescape e; more c (scan_string r')
        | [] => None
        end
      else if Z.of_N (Byte.to_N b) <? 32 then None
      else more b (scan_string r)
  end.

(** Digits that are required to be there. *)
Definition some_digits (s : bytes) : option (bytes * bytes) :=
  let '(ds, r) := span_digits s in
  match ds with
  | [] => None
  | _ => Some (ds, r)
  end.

(** A number literal: an optional minus sign; an integer part, which is a
    single 0 or starts with a digit other than 0; an optional fraction (a dot
    and digits) and an optional exponent (e or E, a sign, digits). *)
Definition scan_number (s : bytes) : option (bytes * bytes) :=
  let '(sign, s) :=
    match eat "-"%byte s with Some r => (["-"%byte], r) | None => ([], s) end in
  '(int, s) ← some_digits s;
  if bool_decide (1 < length int)%nat && bool_decide (eat "0"%byte int ≠ None)
  then None else
  '(frac, s) ← match eat "."%byte s with
               | Some r => '(ds, r) ← some_digits r; Some ("."%byte :: ds, r)
               | None => Some ([], s)
               end;
  '(exp, s) ← match s with
              | e :: r =>
                  if Byte.eqb e "e"%byte || Byte.eqb e "E"%byte then
                    let '(sg, r) :=
                      match eat "+"%byte r, eat "-"%byte r with
                      | Some r', _ => (["+"%byte], r')
                      | None, Some r' => (["-"%byte], r')
                      | None, None => ([], r)
                      end in
                    '(ds, r) ← some_digits r; Some (e :: sg ++ ds, r)%list
                  else Some ([], s)
              | [] => Some ([], s)
              end;
  Some (sign ++ int ++ frac ++ exp, s)%list.

Fixpoint strip_prefix (w s : bytes) : option bytes :=
  match w, s with
  | [], _ => Some s
  | a :: w', b :: s' => if Byte.eqb a b then strip_prefix w' s' else None
  | _ :: _, [] => None
  end.

Definition expect (word : string) (v : json) (s : bytes) : option (json * bytes) :=
  r ← strip_prefix (list_byte_of_string word) s; Some (v, r).

(** The kind of value a text starts with, from its first byte. *)
Inductive start : Type :=
| SObject | SArray | SString | STrue | SFalse | SNull | SOther.

Definition start_of (s : bytes) : start :=
  match s with
  | [] => SOther
  | b :: _ =>
      match b with
      | x7b => SObject
      | x5b => SArray
      | x22 => SString
      | x74 => STrue
      | x66 => SFalse
      | x6e => SNull
      | _ => SOther
      end
  end.

Fixpoint parse_value (fuel : nat) (s : bytes) : option (json * bytes) :=
  match fuel with
  | O => None
  | S fuel =>
      let s := skip_space s in
      match start_of s with
      | SObject =>
          match eat "}"%byte (skip_space (tail s)) with
          | Some r => Some (JObject [], r)
          | None => '(ms, r) ← parse_members fuel (tail s); Some (JObject ms, r)
          end
      | SArray =>
          match eat "]"%byte (skip_space (tail s)) with
          | Some r => Some (JArray [], r)
          | None => '(vs, r) ← parse_items fuel (tail s); Some (JArray vs, r)
          end
      | SString =>
          '(cs, r) ← scan_string (tail s); Some (JString (string_of_list_byte cs), r)
      | STrue => expect "true" (JBool true) s
      | SFalse => expect "false" (JBool false) s
      | SNull => expect "null" JNull s
      | SOther => '(lit, r) ← scan_number s; Some (JNumber lit, r)
      end
  end
with parse_items (fuel : nat) (s : bytes) : option (list json * bytes) :=
  match fuel with
  | O => None
  | S fuel =>
      '(v, r) ← parse_value fuel s;
      match eat ","%byte (skip_space r), eat "]"%byte (skip_space r) with
      | Some r', _ => '(vs, r'') ← parse_items fuel r'; Some (v :: vs, r'')
      | None, Some r' => Some ([v], r')
      | None, None => None
      end
  end
with parse_members (fuel : nat) (s : bytes) : option (list (string * json) * bytes) :=
  match fuel with
  | O => None
  | S fuel =>
      r ← eat "034"%byte (skip_space s);
      '(cs, r) ← scan_string r;
      r ← eat ":"%byte (skip_space r);
      '(v, r) ← parse_value fuel r;
      let m := (string_of_list_byte cs, v) in
      match eat ","%byte (skip_space r), eat "}"%byte (skip_space r) with
      | Some r', _ => '(ms, r'') ← parse_members fuel r'; Some (m :: ms, r'')
      | None, Some r' => Some ([m], r')
      | None, None => None
      end
  end.

(** A whole text: one value, surrounded by white space only. *)
Definition parse (s : bytes) : option json :=
  '(v, r) ← parse_value (S (length s)) s;
  match skip_space r with
  | [] => Some v
  | _ => None
  end.

(** *** Decoding into Go values *)

Fixpoint digits_value (ds : bytes) (acc : Z) : option Z :=
  match ds with
  | [] => Some acc
  | d :: r =>
      if is_digit d then digits_value r (10 * acc + (Z.of_N (Byte.to_N d) - 48))
      else None
  end.

(** [strconv.ParseInt(literal, 10, 64)] on a JSON number literal. *)
Definition int64_of_literal (lit : bytes) : option Z :=
  n ← match lit with
      | x2d :: ds => Z.opp <$> digits_value ds 0
      | _ => digits_value lit 0
      end;
  if (- 2 ^ 63 <=? n) && (n <? 2 ^ 63) then Some n else None.

(** The outcome of decoding one JSON value into a field: the new value of
    the field, if it is assigned, and whether the value was of a wrong
    kind. *)
Definition decoded (A : Type) : Type := option A * bool.

Definition as_int (v : json) : decoded Z :=
  match v with
  | JNull => (None, false)
  | JNumber lit =>
      match int64_of_literal lit with
      | Some n => (Some n, false)
      | None => (None, true)
      end
  | _ => (None, true)
  end.

Definition as_string (v : json) : decoded string :=
  match v with
  | JNull => (None, false)
  | JString s => (Some s, false)
  | _ => (None, true)
  end.

Definition as_bool (v : json) : decoded bool :=
  match v with
  | JNull => (None, false)
  | JBool b => (Some b, false)
  | _ => (None, true)
  end.

Definition as_strings (v : json) : decoded (slice string) :=
  match v with
  | JNull => (Some None, false)
  | JArray items =>
      (Some (Some (map (fun it => default "" (as_string it).1) items)),
       existsb (fun it => (as_string it).2) items)
  | _ => (None, true)
  end.

Definition to_lower (a : ascii) : ascii :=
  let n := nat_of_ascii a in
  if (65 <=? n)%nat && (n <=? 90)%nat then ascii_of_nat (n + 32) else a.

Fixpoint fold_case (s : string) : string :=
  match s with
  | EmptyString => EmptyString
  | String a r => String (to_lower a) (fold_case r)
  end.

Definition names (field key : string) : bool :=
  String.eqb (fold_case field) (fold_case key).

(** The value of the field tagged [name] after the members [ms] have been
    decoded in order, starting from [old]. *)
Definition field {A} (dec : json -> decoded A) (name : string)
    (ms : list (string * json)) (old : A) : A :=
  fold_left (fun cur m => if names name m.1 then default cur (dec m.2).1 else cur) ms old.

Definition type_error (key : string) : error :=
  Some (errorString ("json: cannot unmarshal value into Go struct field " +:+ key)).

Definition syntax_error : error :=
  Some (errorString "json: invalid or unexpected end of JSON input").

(** The first member, in the order of the text, whose value is of the wrong
    kind for the field it names.  [checks] lists the fields with the test
    their decoder applies. *)
Fixpoint first_mismatch (checks : list (string * (json -> bool)))
    (ms : list (string * json)) : error :=
  match ms with
  | [] => None
  | (k, v) :: rest =>
      if existsb (fun c => names c.1 k && c.2 v) checks then type_error k
      else first_mismatch checks rest
  end.

Definition first_error (es : list error) : error :=
  default None (List.find (fun e => bool_decide (is_Some e)) es).

Definition decode_struct {A} (build : list (string * json) -> A -> A)
    (checks : list (string * (json -> bool))) (v : json) (old : A) : A * error :=
  match v with
  | JNull => (old, None)
  | JObject ms => (build ms old, first_mismatch checks ms)
  | _ => (old, type_error "")
  end.

Definition decode_slice {A} (dec : json -> A -> A * error) (zero : A)
    (v : json) (old : slice A) : slice A * error :=
  match v with
  | JNull => (None, None)
  | JArray items =>
      let rs := map (fun it => dec it zero) items in
      (Some (map fst rs), first_error (map snd rs))
  | _ => (old, type_error "")
  end.

(** [json.Unmarshal(data, &old)] for a target decoded by [dec]. *)
Definition Unmarshal {A} (dec : json -> A -> A * error) (data : bytes) (old : A)
    : A * error :=
  match parse data with
  | None => (old, syntax_error)
  | Some v => dec v old
  end.

Definition decode_Annotation : json -> Annotation -> Annotation * error :=
  decode_struct
    (fun ms a =>
       {| ID := field as_int "id" ms (ID a);
          AlertID := field as_int "alertId" ms (AlertID a);
          DashboardID := field as_int "dashboardId" ms (DashboardID a);
          PanelID := field as_int "panelId" ms (PanelID a);
          UserID := field as_int "userId" ms (UserID a);
          UserName := field as_string "userName" ms (UserName a);
          NewState := field as_string "newState" ms (NewState a);
          PrevState := field as_string "prevState" ms (PrevState a);
          Time := field as_int "time" ms (Time a);
          TimeEnd := field as_int "timeEnd" ms (TimeEnd a);
          Text := field as_string "text" ms (Text a);
          Metric := field as_string "metric" ms (Metric a);
          RegionID := field as_int "regionId" ms (RegionID a);
          Type_ := field as_string "type" ms (Type_ a);
          Tags := field as_strings "tags" ms (Tags a);
          IsRegion := field as_bool "isRegion" ms (IsRegion a) |})
    (let int v := (as_int v).2 in
     let str v := (as_string v).2 in
     [("id", int); ("alertId", int); ("dashboardId", int); ("panelId", int);
      ("userId", int); ("userName", str); ("newState", str); ("prevState", str);
      ("time", int); ("timeEnd", int); ("text", str); ("metric", str);
      ("regionId", int); ("type", str); ("tags", fun v => (as_strings v).2);
      ("isRegion", fun v => (as_bool v).2)]).

Definition decode_idResult : json -> idResult -> idResult * error :=
  decode_struct (fun ms r => {| result_ID := field as_int "id" ms (result_ID r) |})
    [("id", fun v => (as_int v).2)].

Definition decode_messageResult : json -> messageResult -> messageResult * error :=
  decode_struct
    (fun ms r => {| result_Message := field as_string "message" ms (result_Message r) |})
    [("message", fun v => (as_string v).2)].

Definition decode_orgIdBody : json -> orgIdBody -> orgIdBody * error :=
  decode_struct (fun ms r => {| body_ID := field as_int "orgId" ms (body_ID r) |})
    [("orgId", fun v => (as_int v).2)].

Definition decode_Org : json -> Org -> Org * error :=
  decode_struct
    (fun ms o => {| Id := field as_int "id" ms (Id o);
                    Name := field as_string "name" ms (Name o) |})
    [("id", fun v => (as_int v).2); ("name", fun v => (as_string v).2)].

(** [OrgUser] with the embedded [User] instantiated by the empty struct. *)
Definition decode_OrgUser : json -> OrgUser unit -> OrgUser unit * error :=
  decode_struct
    (fun ms u => {| OrgUser_User := OrgUser_User u;
                    Role := field as_string "role" ms (Role u);
                    OrgID := field as_int "orgId" ms (OrgID u) |})
    [("role", fun v => (as_string v).2); ("orgId", fun v => (as_int v).2)].

(** *** Encoding Go values *)

Definition hex_digit (n : N) : ascii :=
  ascii_of_N (if (n <? 10)%N then 48 + n else 87 + n).

Definition escape (a : ascii) : string :=
  let n := N_of_ascii a in
  if (n =? 34)%N then String "\" (String a "")
  else if (n =? 92)%N then String "\" (String a "")
  else if (n =? 10)%N then "\n"
  else if (n =? 13)%N then "\r"
  else if (n =? 9)%N then "\t"
  else if (n <? 32)%N || (n =? 60)%N || (n =? 62)%N || (n =? 38)%N then
    "\u00" +:+ String (hex_digit (n / 16)) (String (hex_digit (n mod 16)) "")
  else String a "".

Fixpoint escape_all (s : string) : string :=
  match s with
  | EmptyString => EmptyString
  | String a r => escape a +:+ escape_all r
  end.

Definition quote : string := String "034" "".

Definition enc_string (s : string) : string := quote +:+ escape_all s +:+ quote.

Definition enc_bool (b : bool) : string := if b then "true" else "false".

Fixpoint join (sep : string) (l : list string) : string :=
  match l with
  | [] => ""
  | [x] => x
  | x :: r => x +:+ sep +:+ join sep r
  end.

Definition enc_strings (s : slice string) : string :=
  match s with
  | None => "null"
  | Some l => "[" +:+ join "," (map enc_string l) +:+ "]"
  end.

(** An object from its fields in order; [None] is a field left out by
    [omitempty]. *)
Definition enc_object (fields : list (option (string * string))) : string :=
  "{" +:+ join "," (map (fun f => enc_string f.1 +:+ ":" +:+ f.2) (omap id fields)) +:+ "}".

Definition always (key value : string) : option (string * string) := Some (key, value).

Definition omitempty (empty : bool) (key value : string) : option (string * string) :=
  if empty then None else Some (key, value).

Definition enc_Annotation (a : Annotation) : string :=
  enc_object
    [omitempty (ID a =? 0) "id" (itoa (ID a));
     omitempty (AlertID a =? 0) "alertId" (itoa (AlertID a));
     always "dashboardId" (itoa (DashboardID a));
     always "panelId" (itoa (PanelID a));
     omitempty (UserID a =? 0) "userId" (itoa (UserID a));
     omitempty (String.eqb (UserName a) "") "userName" (enc_string (UserName a));
     omitempty (String.eqb (NewState a) "") "newState" (enc_string (NewState a));
     omitempty (String.eqb (PrevState a) "") "prevState" (enc_string (PrevState a));
     always "time" (itoa (Time a));
     omitempty (TimeEnd a =? 0) "timeEnd" (itoa (TimeEnd a));
     always "text" (enc_string (Text a));
     omitempty (String.eqb (Metric a) "") "metric" (enc_string (Metric a));
     omitempty (RegionID a =? 0) "regionId" (itoa (RegionID a));
     omitempty (String.eqb (Type_ a) "") "type" (enc_string (Type_ a));
     omitempty (bool_decide (elems (Tags a) = [])) "tags" (enc_strings (Tags a));
     omitempty (negb (IsRegion a)) "isRegion" (enc_bool (IsRegion a))].

Definition enc_GraphiteAnnotation (g : GraphiteAnnotation) : string :=
  enc_object
    [always "what" (enc_string (What g));
     always "when" (itoa (When g));
     always "data" (enc_string (Data g));
     omitempty (bool_decide (elems (GraphiteTags g) = [])) "tags"
       (enc_strings (GraphiteTags g))].

Definition enc_Org (o : Org) : string :=
  enc_object [always "id" (itoa (Id o)); always "name" (enc_string (Name o))].

Fixpoint insert_sorted (kv : string * string) (l : list (string * string))
    : list (string * string) :=
  match l with
  | [] => [kv]
  | x :: r => if String.leb kv.1 x.1 then kv :: l else x :: insert_sorted kv r
  end.

(** A map is written with its keys in increasing order. *)
Definition enc_StringMap (m : gmap string string) : string :=
  enc_object
    (map (fun kv => always kv.1 (enc_string kv.2))
       (foldr insert_sorted [] (map_to_list m))).

Definition enc_pointer {A} (enc : A -> string) (p : option A) : bytes * error :=
  (list_byte_of_string (match p with Some a => enc a | None => "null" end), None).

#[global] Instance json_unit : JSON unit := {|
  Marshal_Annotation := enc_pointer enc_Annotation;
  Marshal_GraphiteAnnotation := enc_pointer enc_GraphiteAnnotation;
  Marshal_StringMap m := (list_byte_of_string (enc_StringMap m), None);
  Marshal_Org o := (list_byte_of_string (enc_Org o), None);
  Unmarshal_Annotations := Unmarshal (decode_slice decode_Annotation Annotation_zero);
  Unmarshal_idResult := Unmarshal decode_idResult;
  Unmarshal_messageResult := Unmarshal decode_messageResult;
  Unmarshal_OrgUsers :=
    Unmarshal (decode_slice decode_OrgUser
                 {| OrgUser_User := tt; Role := ""; OrgID := 0 |});
  Unmarshal_Org := Unmarshal decode_Org;
  Unmarshal_Orgs := Unmarshal (decode_slice decode_Org Org_zero);
  Unmarshal_orgIdBody := Unmarshal decode_orgIdBody
|}.
End GoJSON.

(** ** A concrete client and remote side

    [newRequest] and [Do] are declared in client.go, which is not among the
    embedded files.  The theorems below hold for every handler of the two
    calls; the handler of this module follows the executor contract of the
    spec and serves to run the operations on concrete inputs. *)

Module Scripted.
(** The remote side: a function from requests to answers. *)
Definition Net : Type := Request -> Response * error.

Definition no_request : Request :=
  {| Method := ""; URL := ""; Query := ∅; Authorization := APIKey "";
     RequestBody := None |}.

(** Modelled from the spec: [newRequest] is declared in client.go.  It
    joins the base URL of the client with the path, applies the query
    parameters and attaches the credential the client was constructed
    with.  It does not write to the client.  A pointer to no client is
    reported as an error. *)
Definition newRequest_impl (c : ptr) (method path : string) (query : Values)
    (body : Reader) (w : World Net) : (Request * error) * World Net :=
  match clients w !! c with
  | Some cl =>
      (({| Method := method; URL := baseURL cl +:+ path; Query := query;
           Authorization := credential cl; RequestBody := body |}, None), w)
  | None => ((no_request, errors_New "no client"), w)
  end.

(** Modelled from the spec: [Do] is declared in client.go.  It sends the
    request and returns what the remote side answers.  It does not write to
    the client. *)
Definition Do_impl (c : ptr) (req : Request) (w : World Net)
    : (Response * error) * World Net :=
  (net w req, w).

(** A server without data sources. *)
Definition DataSourcesByOrgId_impl (c : ptr) (id : Z) (w : World Net)
    : (slice ptr * error) * World Net :=
  ((Some [], None), w).

Definition handler : Handler Net :=
  {| on_newRequest := newRequest_impl; on_Do := Do_impl;
     on_DataSourcesByOrgId := DataSourcesByOrgId_impl |}.

Definition grafana : Client :=
  {| baseURL := "http://localhost:3000"; credential := APIKey "secret";
     transport := ∅ |}.

(** The address of [grafana] in the worlds below. *)
Definition grafana_ptr : ptr := 1%positive.

(** The response with the given status and body. *)
Definition response (code : Z) (status : string) (body : string) : Response :=
  {| Status := status; StatusCode := code;
     Body := {| received := list_byte_of_string body; readErr := None |} |}.

(** A world with one client, at [grafana_ptr], and a remote side that answers
    every request with the given status and body. *)
Definition answering (code : Z) (status : string) (body : string) : World Net :=
  {| clients := {[ grafana_ptr := grafana ]};
     net := fun _ => (response code status body, None) |}.

Definition quoted (s : string) : string := GoJSON.quote +:+ s +:+ GoJSON.quote.

(** A world whose remote side cannot be reached: [Do] returns the error. *)
Definition unreachable (message : string) : World Net :=
  {| clients := {[ grafana_ptr := grafana ]};
     net := fun _ => (response 0 "" "", errors_New message) |}.

(** A world whose remote side answers 200 and then breaks the connection:
    reading the body yields the bytes of [body] and the error. *)
Definition truncating (body message : string) : World Net :=
  {| clients := {[ grafana_ptr := grafana ]};
     net := fun _ =>
       ({| Status := "200 OK"; StatusCode := 200;
           Body := {| received := list_byte_of_string body;
                      readErr := errors_New message |} |}, None) |}.

(** The text [{"message":"Annotation deleted"}]. *)
Definition deleted_message : string :=
  "{" +:+ quoted "message" +:+ ":" +:+ quoted "Annotation deleted" +:+ "}".

(** The text [[{"id":1,"name":"Main Org."}]]. *)
Definition one_org : string :=
  "[{" +:+ quoted "id" +:+ ":1," +:+ quoted "name" +:+ ":" +:+ quoted "Main Org." +:+ "}]".

(** The text [{"orgId":9,"message":"Organization created"}]. *)
Definition org_created : string :=
  "{" +:+ quoted "orgId" +:+ ":9," +:+ quoted "message" +:+ ":"
  +:+ quoted "Organization created" +:+ "}".

(** The request [newRequest] builds for the client at [grafana_ptr]. *)
Definition request (method path : string) (query : Values) (body : Reader)
    : Request :=
  {| Method := method; URL := "http://localhost:3000" +:+ path; Query := query;
     Authorization := APIKey "secret"; RequestBody := body |}.

(** The text [{"id": 42}]. *)
Definition id_42 : string := "{" +:+ quoted "id" +:+ ": 42}".

(** The text [[{"id":1,"text":"a"},{"id":5,"text":"b"}]]. *)
Definition two_annotations : string :=
  "[{" +:+ quoted "id" +:+ ":1," +:+ quoted "text" +:+ ":" +:+ quoted "a" +:+ "},{"
  +:+ quoted "id" +:+ ":5," +:+ quoted "text" +:+ ":" +:+ quoted "b" +:+ "}]".

(** The annotation with the given ID and text, all else zero. *)
Definition annotation (id : Z) (text : string) : Annotation :=
  {| ID := id; AlertID := 0; DashboardID := 0; PanelID := 0; UserID := 0;
     UserName := ""; NewState := ""; PrevState := ""; Time := 0; TimeEnd := 0;
     Text := text; Metric := ""; RegionID := 0; Type_ := ""; Tags := None;
     IsRegion := false |}.
End Scripted.

(** ** Properties of programs *)

(** A program that never assigns through a [*Client]. *)
Fixpoint readonly {A} (p : prog A) : Prop :=
  match p with
  | Ret _ => True
  | Call e k =>
      match e with Store _ _ => False | _ => True end ∧ ∀ x, readonly (k x)
  end.

(** A handler whose [newRequest], [Do] and [DataSourcesByOrgId] leave the
    client objects as they are. *)
Definition frames_clients {Net} (h : Handler Net) : Prop :=
  (∀ c method path query body w,
     clients (on_newRequest h c method path query body w).2 = clients w) ∧
  (∀ c req w, clients (on_Do h c req w).2 = clients w) ∧
  (∀ c id w, clients (on_DataSourcesByOrgId h c id w).2 = clients w).

(** The calls one run of an operation makes, and where it stops.  Every
    embedded operation that talks to the server goes through the same
    stages; [failure] is what the operation returns on a status code other
    than 200. *)
Inductive stage {R} (failure : error -> R) : R -> list event -> Prop :=
| stage_no_call r :
    stage failure r []
| stage_forwarded r c id sources err :
    stage failure r [EvDataSourcesByOrgId c id sources err]
| stage_request_failed r c method path query body req e :
    stage failure r [EvNewRequest c method path query body req (Some e)]
| stage_transport_failed r c method path query body req resp e :
    stage failure r
      [EvNewRequest c method path query body req None; EvDo c req resp (Some e)]
| stage_status_failed c method path query body req resp :
    StatusCode resp ≠ 200 ->
    stage failure (failure (errors_New (Status resp)))
      [EvNewRequest c method path query body req None; EvDo c req resp None]
| stage_ok_unread r c method path query body req resp :
    StatusCode resp = 200 ->
    stage failure r
      [EvNewRequest c method path query body req None; EvDo c req resp None]
| stage_ok_read r c method path query body req resp data err :
    StatusCode resp = 200 ->
    stage failure r
      [EvNewRequest c method path query body req None; EvDo c req resp None;
       EvReadAll (Body resp) data err].

(** ** The operations as instances of one executor

    The embedded files repeat one sequence of steps in every function.
    [execute] is that sequence written once, after the request executor of
    the design: build the request, send it, fail on a status code other than
    200, otherwise read the body (or not) and compute the result.  [prepare]
    gives, for each operation, what it feeds the executor with: what it
    returns without any call, or the request it builds, what it returns with
    an error, and what it computes from the body. *)

Inductive finish (R : Type) : Type :=
| Unread (r : R)
| Read (k : bytes -> error -> R).
Arguments Unread {R} r.
Arguments Read {R} k.

Inductive plan (R : Type) : Type :=
| Stop (r : R)
| Forward (c : ptr) (id : Z) (ret : slice ptr * error -> R)
| Send (c : ptr) (method path : string) (query : Values) (body : Reader)
    (failure : error -> R) (fin : finish R).
Arguments Stop {R} r.
Arguments Forward {R} c id ret.
Arguments Send {R} c method path query body failure fin.

Definition execute {R} (p : plan R) : prog R :=
  match p with
  | Stop r => Ret r
  | Forward c id ret => r ← perform (DataSourcesByOrgId c id); Ret (ret r)
  | Send c method path query body failure fin =>
      '(req, err) ← perform (newRequest c method path query body);
      if_err err return_ (failure err) ;;
      '(resp, err) ← perform (Do c req);
      if_err err return_ (failure err) ;;
      if negb (StatusCode resp =? 200) then Ret (failure (errors_New (Status resp)))
      else
        match fin with
        | Unread r => Ret r
        | Read k => '(data, err) ← perform (ReadAll (Body resp)); Ret (k data err)
        end
  end.

(** The usual end of an operation: a read error is returned like the
    errors before it, and a body read to its end is decoded. *)
Definition decoding {R} (failure : error -> R) (decode : bytes -> R) : finish R :=
  Read (fun data err => match err with Some _ => failure err | None => decode data end).

Section Plans.
Context {User : Type} `{!JSON User}.

Definition prepare (o : operation) : plan (returns o) :=
  match o return plan (returns o) with
  | OpAnnotations c params =>
      Send c "GET" "/api/annotation" params None (fun err => (None, err))
        (decoding (fun err => (None, err))
           (fun data => Unmarshal_Annotations data (Some [])))
  | OpAnnotation c id params =>
      Send c "GET" "/api/annotation" params None (fun err => (Annotation_zero, err))
        (decoding (fun err => (Annotation_zero, err))
           (fun data =>
              let '(as_, err) := Unmarshal_Annotations data (Some []) in
              match err with
              | Some _ => (Annotation_zero, err)
              | None =>
                  match List.find (fun a => ID a =? id) (elems as_) with
                  | Some a => (a, None)
                  | None =>
                      (Annotation_zero,
                       fmt_Errorf ("annotation " +:+ itoa id +:+ " not found"))
                  end
              end))
  | OpNewAnnotation c a =>
      match Marshal_Annotation a with
      | (_, Some e) => Stop (0, Some e)
      | (data, None) =>
          Send c "POST" "/api/annotations" ∅ (Some data) (fun err => (0, err))
            (decoding (fun err => (0, err))
               (fun data =>
                  let '(r, err) := Unmarshal_idResult data {| result_ID := 0 |} in
                  (result_ID r, err)))
      end
  | OpNewGraphiteAnnotation c gfa =>
      match Marshal_GraphiteAnnotation gfa with
      | (_, Some e) => Stop (0, Some e)
      | (data, None) =>
          Send c "POST" "/api/annotations/graphite" ∅ (Some data) (fun err => (0, err))
            (decoding (fun err => (0, err))
               (fun data =>
                  let '(r, err) := Unmarshal_idResult data {| result_ID := 0 |} in
                  (result_ID r, err)))
      end
  | OpUpdateAnnotation c id a =>
      match Marshal_Annotation a with
      | (_, Some e) => Stop ("", Some e)
      | (data, None) =>
          Send c "PUT" ("/api/annotations/" +:+ itoa id) ∅ (Some data)
            (fun err => ("", err))
            (decoding (fun err => ("", err))
               (fun data =>
                  let '(r, err) :=
                    Unmarshal_messageResult data {| result_Message := "" |} in
                  (result_Message r, err)))
      end
  | OpPatchAnnotation c id a =>
      match Marshal_Annotation a with
      | (_, Some e) => Stop ("", Some e)
      | (data, None) =>
          Send c "PATCH" ("/api/annotations/" +:+ itoa id) ∅ (Some data)
            (fun err => ("", err))
            (decoding (fun err => ("", err))
               (fun data =>
                  let '(r, err) :=
                    Unmarshal_messageResult data {| result_Message := "" |} in
                  (result_Message r, err)))
      end
  | OpDeleteAnnotation c id =>
      Send c "DELETE" ("/api/annotations/" +:+ itoa id) ∅ (Some [])
        (fun err => ("", err))
        (decoding (fun err => ("", err))
           (fun data =>
              let '(r, err) :=
                Unmarshal_messageResult data {| result_Message := "" |} in
              (result_Message r, err)))
  | OpDeleteAnnotationByRegionID c id =>
      Send c "DELETE" ("/api/annotations/region/" +:+ itoa id) ∅ (Some [])
        (fun err => ("", err))
        (decoding (fun err => ("", err))
           (fun data =>
              let '(r, err) :=
                Unmarshal_messageResult data {| result_Message := "" |} in
              (result_Message r, err)))
  | OpOrgDataSources o c => Forward c (Id o) (fun r => r)
  | OpOrgAddUser o c username role =>
      if negb (String.eqb role OrgUserRoleAdmin || String.eqb role OrgUserRoleEditor
               || String.eqb role OrgUserRoleViewer)
      then Stop (fmt_Errorf ("invalid role name: " +:+ role))
      else
        match Marshal_StringMap {[ "role" := role; "loginOrEmail" := username ]} with
        | (_, Some e) => Stop (Some e)
        | (data, None) =>
            Send c "POST" ("/api/orgs/" +:+ itoa (Id o) +:+ "/users") ∅ (Some data)
              (fun err => err) (Read (fun _ err => err))
        end
  | OpOrgDashboards o c => Stop (Some [], errors_New "not implemented")
  | OpOrgUsers o c =>
      Send c "GET" ("/api/orgs/" +:+ itoa (Id o) +:+ "/users") ∅ None
        (fun err => (Some [], err))
        (decoding (fun err => (Some [], err))
           (fun data => Unmarshal_OrgUsers data (Some [])))
  | OpOrgRemoveUser o c userID =>
      Send c "DELETE" ("/api/orgs/" +:+ itoa (Id o) +:+ "/users/" +:+ itoa userID)
        ∅ None (fun err => err) (Read (fun _ err => err))
  | OpOrg c id =>
      Send c "GET" ("/api/orgs/" +:+ itoa id) ∅ None (fun err => (Org_zero, err))
        (decoding (fun err => (Org_zero, err))
           (fun data => Unmarshal_Org data Org_zero))
  | OpOrgByName c name =>
      Send c "GET" ("/api/orgs/name/" +:+ name) ∅ None (fun err => (Org_zero, err))
        (decoding (fun err => (Org_zero, err))
           (fun data => Unmarshal_Org data Org_zero))
  | OpOrgs c =>
      Send c "GET" "/api/orgs/" ∅ None (fun err => (Some [], err))
        (decoding (fun err => (Some [], err))
           (fun data => Unmarshal_Orgs data (Some [])))
  | OpNewOrg c name =>
      let org := {| Id := 0; Name := name |} in
      Send c "POST" "/api/orgs" ∅ (Some (Marshal_Org org).1) (fun err => (org, err))
        (Read (fun data err =>
                 ({| Id := body_ID (Unmarshal_orgIdBody data {| body_ID := 0 |}).1;
                     Name := name |}, err)))
  | OpDeleteOrg c id =>
      Send c "DELETE" ("/api/orgs/" +:+ itoa id) ∅ None (fun err => err) (Unread None)
  end.
End Plans.

(** What a run of a plan returns and the calls it makes, stage by stage. *)
Inductive executed {R} : plan R -> R -> list event -> Prop :=
| executed_stop r :
    executed (Stop r) r []
| executed_forward c id ret (r : slice ptr * error) :
    executed (Forward c id ret) (ret r) [EvDataSourcesByOrgId c id r.1 r.2]
| executed_request_failed c method path query body failure fin req e :
    executed (Send c method path query body failure fin) (failure (Some e))
      [EvNewRequest c method path query body req (Some e)]
| executed_transport_failed c method path query body failure fin req resp e :
    executed (Send c method path query body failure fin) (failure (Some e))
      [EvNewRequest c method path query body req None; EvDo c req resp (Some e)]
| executed_status_failed c method path query body failure fin req resp :
    StatusCode resp ≠ 200 ->
    executed (Send c method path query body failure fin)
      (failure (errors_New (Status resp)))
      [EvNewRequest c method path query body req None; EvDo c req resp None]
| executed_unread c method path query body failure r req resp :
    StatusCode resp = 200 ->
    executed (Send c method path query body failure (Unread r)) r
      [EvNewRequest c method path query body req None; EvDo c req resp None]
| executed_read c method path query body failure k req resp :
    StatusCode resp = 200 ->
    executed (Send c method path query body failure (Read k))
      (k (received (Body resp)) (readErr (Body resp)))
      [EvNewRequest c method path query body req None; EvDo c req resp None;
       EvReadAll (Body resp) (received (Body resp)) (readErr (Body resp))].

(** The path of the request a run starts with, if it starts with one. *)
Definition requested_path {Net A} (o : A * World Net * list event) : option string :=
  match trace o with
  | EvNewRequest _ _ path _ _ _ _ :: _ => Some path
  | _ => None
  end.

(** * Proofs *)

Ltac unfold_ops :=
  unfold Client.Annotation, Client.Annotations, Client.NewAnnotation,
    Client.NewGraphiteAnnotation, Client.UpdateAnnotation, Client.PatchAnnotation,
    Client.DeleteAnnotation, Client.DeleteAnnotationByRegionID, Client.Org,
    Client.OrgByName, Client.Orgs, Client.NewOrg, Client.DeleteOrg,
    Org.DataSources, Org.AddUser, Org.Dashboards, Org.Users, Org.RemoveUser.

(** One step of a run: name what the handler, the status test, the stream
    or the JSON codec returns, and go on with each case. *)
Ltac run_step :=
  match goal with
  | |- context [on_newRequest ?h ?c ?m ?p ?q ?b ?w] =>
      destruct (on_newRequest h c m p q b w) as [[? [?|]] ?] eqn:?
  | |- context [on_Do ?h ?c ?r ?w] =>
      destruct (on_Do h c r w) as [[? [?|]] ?] eqn:?
  | |- context [on_DataSourcesByOrgId ?h ?c ?i ?w] =>
      destruct (on_DataSourcesByOrgId h c i w) as [[? ?] ?] eqn:?
  | |- context [StatusCode ?r =? 200] =>
      destruct (Z.eqb_spec (StatusCode r) 200)
  | |- context [match ?x with _ => _ end] =>
      lazymatch x with
      | context [run] => fail
      | context [on_newRequest] => fail
      | context [on_Do] => fail
      | context [on_DataSourcesByOrgId] => fail
      | _ => destruct x eqn:?
      end
  end; cbn.

Ltac readonly_tac :=
  cbn;
  repeat (first
    [ done
    | split
    | match goal with
      | |- ∀ _ : _ * _, _ => intros [? [?|]]
      | |- readonly (if ?b then _ else _) => destruct b
      | |- readonly (match ?x with _ => _ end) => destruct x as [? [?|]]
      | |- readonly (match ?x with _ => _ end) => destruct x
      end; cbn ]).

Section Proofs.
Context {User : Type} `{!JSON User} {Net : Type} (h : Handler Net).
Local Abbreviation denote := (@denote User _).
Local Abbreviation returns := (@returns User).
Local Abbreviation status_failure := (@status_failure User).
Local Abbreviation zero_result := (@zero_result User).
Local Abbreviation returned_error := (@returned_error User).

(** *** Running programs *)

Lemma run_bind {A B} (p : prog A) (f : A -> prog B) (w : World Net) :
  run h (p ≫= f) w =
  let '(a, w1, t1) := run h p w in
  let '(b, w2, t2) := run h (f a) w1 in
  (b, w2, (t1 ++ t2)%list).
Proof.
  revert w. induction p as [a|X e k IH]; intros w; cbn.
  - by destruct (run h (f a) w) as [[b w2] t2].
  - destruct (handle h e w) as [[x w1] ev].
    change (bind (k x) f) with (k x ≫= f). rewrite IH.
    destruct (run h (k x) w1) as [[a w2] t].
    by destruct (run h (f a) w2) as [[b w3] t2].
Qed.

Lemma readonly_bind {A B} (p : prog A) (f : A -> prog B) :
  readonly p -> (∀ a, readonly (f a)) -> readonly (p ≫= f).
Proof.
  intros Hp Hf. induction p as [a|X e k IH]; cbn in *; [done|].
  destruct Hp as [He Hk]. split; [done|]. intros x. by apply IH.
Qed.

(** A read-only program run against a handler that leaves the client
    objects alone leaves them alone. *)
Lemma run_readonly {A} (p : prog A) (w : World Net) :
  frames_clients h -> readonly p -> clients (final (run h p w)) = clients w.
Proof.
  intros (HnewRequest & HDo & HDataSources). revert w.
  induction p as [a|X e k IH]; intros w Hp; [done|].
  destruct Hp as [He Hk]. cbn.
  destruct (handle h e w) as [[x w1] ev] eqn:Hhandle.
  specialize (IH x w1 (Hk x)).
  destruct (run h (k x) w1) as [[a w2] t]. unfold final in *. cbn in *.
  rewrite IH. clear IH Hk.
  destruct e as [c method path query body|c req|r|c id|c v]; cbn in Hhandle.
  - specialize (HnewRequest c method path query body w).
    destruct (on_newRequest h c method path query body w) as [r w'].
    by simplify_eq.
  - specialize (HDo c req w). destruct (on_Do h c req w) as [r w'].
    by simplify_eq.
  - by simplify_eq.
  - specialize (HDataSources c id w).
    destruct (on_DataSourcesByOrgId h c id w) as [r w']. by simplify_eq.
  - done.
Qed.

(** *** The loop of [Annotation] *)

Lemma Annotation_range_find (l : list Annotation) (id : Z)
    (after : prog (Annotation * error)) :
  Client.Annotation_range l id after =
  match List.find (fun a => ID a =? id) l with
  | Some a => Ret (a, None)
  | None => after
  end.
Proof.
  induction l as [|a l IH]; cbn; [done|]. by destruct (ID a =? id).
Qed.

Lemma Annotation_range_ret (l : list Annotation) (id : Z) (r : Annotation * error) :
  ∃ r', Client.Annotation_range l id (Ret r) = Ret r'.
Proof.
  rewrite Annotation_range_find. destruct (List.find _ l); eauto.
Qed.

(** *** The stages of an operation *)

Lemma stage_status_failed' {R} (failure : error -> R) r c method path query body
    req resp :
  r = failure (errors_New (Status resp)) ->
  StatusCode resp ≠ 200 ->
  stage failure r
    [EvNewRequest c method path query body req None; EvDo c req resp None].
Proof. intros ->. apply stage_status_failed. Qed.

Lemma run_stage (o : operation) (w : World Net) :
  stage (status_failure o) (result (run h (denote o) w)) (trace (run h (denote o) w)).
Proof.
  destruct o; unfold result, trace; cbn; unfold_ops; cbn; repeat run_step;
    try (econstructor; eauto; fail);
    try (apply stage_status_failed'; [reflexivity|assumption]).
  match goal with
  | |- context [Client.Annotation_range ?l ?i (Ret ?r)] =>
      destruct (Annotation_range_ret l i r) as [r' ->]
  end.
  cbn. by econstructor.
Qed.

Lemma denote_readonly (o : operation) : readonly (denote o).
Proof.
  destruct o; try (cbn; unfold_ops; readonly_tac; fail).
  change (readonly (Client.Annotation c id params)).
  unfold Client.Annotation. apply readonly_bind.
  - unfold_ops. readonly_tac.
  - intros [as_ [e|]]; cbn; [done|].
    rewrite Annotation_range_find. by destruct (List.find _ _).
Qed.

Lemma find_first {A} (f : A -> bool) (l : list A) (a : A) :
  List.find f l = Some a ->
  ∃ before after,
    l = (before ++ a :: after)%list ∧ (∀ b, In b before -> f b = false) ∧ f a = true.
Proof.
  induction l as [|x l IH]; cbn; [done|].
  destruct (f x) eqn:Hx.
  - intros [= ->]. by exists [], l.
  - intros Hfind. destruct (IH Hfind) as (before & after & -> & Hbefore & Ha).
    exists (x :: before), after. split_and!; [done| |done].
    intros b [<-|Hb]; [done|by apply Hbefore].
Qed.

Lemma Users_fold (l : list (OrgUser User)) (users : slice User) :
  fold_left (fun users ou => append users (OrgUser_User ou)) l users =
  match l with
  | [] => users
  | _ => Some (elems users ++ map OrgUser_User l)%list
  end.
Proof.
  revert users. induction l as [|ou l IH]; intros users; cbn; [done|].
  rewrite IH. destruct l; cbn; [done|]. by rewrite <- app_assoc.
Qed.

(** *** The claims *)

(** C1 (as amended).  When an operation receives a response whose status
    code is not exactly 200 (404, but also 201 or 204), it returns a
    non-nil error whose message is the status text of the response,
    together with the value [status_failure] gives: the zero or empty
    value of the result type for every operation except [NewOrg], which
    returns the [Org] it built from its argument, with [Id] 0 and [Name]
    the given name. *)
Theorem status_failure_returned (o : operation) (w : World Net) c req resp :
  In (EvDo c req resp None) (trace (run h (denote o) w)) ->
  StatusCode resp ≠ 200 ->
  let r := result (run h (denote o) w) in
  let e := errors_New (Status resp) in
  r = status_failure o e ∧
  returned_error o r = Some (errorString (Status resp)) ∧
  ((∀ c' name, o ≠ OpNewOrg c' name) -> zero_result o e r).
Proof.
  intros HIn Hcode. pose proof (run_stage o w) as Hs.
  destruct (run h (denote o) w) as [[r w'] t].
  unfold result, trace in *. cbn in *.
  assert (r = status_failure o (errors_New (Status resp))) as ->.
  { inversion Hs; subst; cbn in HIn; intuition; simplify_eq; done. }
  split; [done|]. split.
  - by destruct o.
  - intros Hnot. destruct o; cbn; try done. by destruct (Hnot c0 name).
Qed.

(** C3.  [Annotation] makes exactly the calls of [Annotations] (it fetches
    the whole collection) and scans the list returned: when some element
    has the wanted ID it returns the first such element with a nil error,
    and when none has it returns [Annotation{}] with the error
    "annotation <id> not found". *)
Theorem Annotation_scans_collection (c : ptr) (id : Z) (params : Values)
    (w : World Net) (as_ : slice Annotation) :
  result (run h (Client.Annotations c params) w) = (as_, None) ->
  let fetched := run h (Client.Annotations c params) w in
  let out := run h (Client.Annotation c id params) w in
  trace out = trace fetched ∧ final out = final fetched ∧
  ((∃ a, In a (elems as_) ∧ ID a = id) ->
     ∃ a before after,
       elems as_ = (before ++ a :: after)%list ∧
       (∀ b, In b before -> ID b ≠ id) ∧ ID a = id ∧
       result out = (a, None)) ∧
  ((∀ a, In a (elems as_) -> ID a ≠ id) ->
     result out =
     (Annotation_zero,
      Some (errorString ("annotation " +:+ itoa id +:+ " not found")))).
Proof.
  intros Hfetched. cbv zeta. unfold Client.Annotation. rewrite run_bind.
  revert Hfetched. unfold error.
  match goal with |- context [@run ?N ?A h ?p w] => generalize (@run N A h p w) end.
  intros [[[as' e] w1] t1] Hfetched.
  unfold result, trace, final in *. cbn in Hfetched. simplify_eq.
  cbn. rewrite Annotation_range_find.
  destruct (List.find (fun a => ID a =? id) (elems as_)) as [a|] eqn:Hfind; cbn;
    rewrite app_nil_r; (split; [done|]); (split; [done|]); split.
  - intros _. destruct (find_first _ _ _ Hfind) as (before & after & Hl & Hb & Ha).
    exists a, before, after. split_and!; [done| |lia|done].
    intros b Hin. specialize (Hb b Hin). cbn in Hb. lia.
  - intros Hnone. apply find_some in Hfind as [Hin Ha].
    specialize (Hnone a Hin). lia.
  - intros (a & Hin & Ha).
    pose proof (find_none _ _ Hfind a Hin) as Hne. cbn in Hne. lia.
  - done.
Qed.

(** C4.  [AddUser] with a role other than "Admin", "Editor" and "Viewer"
    is the program that returns the error "invalid role name: <role>"
    without any call: no request is built or sent and the world is as it
    was.  With one of the three roles it goes on: once the body is
    marshalled it builds the POST request for /api/orgs/<id>/users, and
    when that is built it sends it. *)
Theorem AddUser_checks_role (o : Org) (c : ptr) (username role : string)
    (w : World Net) :
  let out := run h (Org.AddUser o c username role) w in
  (role ≠ "Admin" -> role ≠ "Editor" -> role ≠ "Viewer" ->
     Org.AddUser o c username role =
       Ret (Some (errorString ("invalid role name: " +:+ role))) ∧
     out = (Some (errorString ("invalid role name: " +:+ role)), w, [])) ∧
  (role = "Admin" ∨ role = "Editor" ∨ role = "Viewer" ->
     ∀ data,
       Marshal_StringMap {[ "role" := role; "loginOrEmail" := username ]}
         = (data, None) ->
       ∃ req err rest,
         trace out =
           EvNewRequest c "POST" ("/api/orgs/" +:+ itoa (Id o) +:+ "/users") ∅
             (Some data) req err :: rest ∧
         (err = None -> ∃ resp err' rest', rest = EvDo c req resp err' :: rest')).
Proof.
  cbn zeta. unfold Org.AddUser, OrgUserRoleAdmin, OrgUserRoleEditor, OrgUserRoleViewer.
  split.
  - intros HA HE HV.
    apply String.eqb_neq in HA, HE, HV. by rewrite HA, HE, HV.
  - intros Hrole data Hdata.
    assert (String.eqb role "Admin" || String.eqb role "Editor"
            || String.eqb role "Viewer" = true) as ->.
    { destruct Hrole as [-> | [-> | ->]]; reflexivity. }
    cbn [negb]. rewrite Hdata. unfold trace. cbn.
    destruct (on_newRequest h c "POST" _ ∅ (Some data) w) as [[req [e|]] w1]; cbn.
    { eexists _, _, _. split; [reflexivity|]. by intros [=]. }
    destruct (on_Do h c req w1) as [[resp err'] w2]; cbn.
    destruct (run h _ w2) as [[r w3] t]; cbn.
    eexists _, _, _. split; [reflexivity|]. intros _. by eexists _, _, _.
Qed.

(** C5.  On a response with status 200 whose body is read without error,
    [NewAnnotation] returns the [ID] field of the struct that
    [json.Unmarshal] fills from the body (the value of the key "id"),
    together with the error of [json.Unmarshal]. *)
Theorem NewAnnotation_returns_id (c : ptr) (a : option Annotation)
    (w : World Net) data req w1 resp w2 :
  Marshal_Annotation a = (data, None) ->
  on_newRequest h c "POST" "/api/annotations" ∅ (Some data) w = ((req, None), w1) ->
  on_Do h c req w1 = ((resp, None), w2) ->
  StatusCode resp = 200 ->
  readErr (Body resp) = None ->
  let decoded := Unmarshal_idResult (received (Body resp)) {| result_ID := 0 |} in
  result (run h (Client.NewAnnotation c a) w) = (result_ID decoded.1, decoded.2).
Proof.
  intros Hdata Hreq Hdo Hcode Hread. cbn zeta.
  unfold Client.NewAnnotation, result. rewrite Hdata. cbn.
  rewrite Hreq. cbn. rewrite Hdo. cbn. rewrite Hcode. cbn. rewrite Hread.
  by destruct (Unmarshal_idResult _ _).
Qed.

(** C6 (what the code does).  The first call of [Annotations], whatever
    the client and the parameters, builds a GET request for the path
    /api/annotation, which is not the path /api/annotations. *)
Theorem Annotations_request_path (c : ptr) (params : Values) (w : World Net) :
  (∃ req err rest,
     trace (run h (Client.Annotations c params) w) =
     EvNewRequest c "GET" "/api/annotation" params None req err :: rest) ∧
  "/api/annotation" ≠ "/api/annotations".
Proof.
  split; [|done]. unfold Client.Annotations, trace. cbn.
  destruct (on_newRequest h c "GET" _ params None w) as [[req err] w1].
  destruct (run h _ w1) as [[r w2] t]. cbn. eauto.
Qed.

(** C7.  No operation assigns to the client: whenever the methods declared
    outside the embedded files ([newRequest], [Do], [DataSourcesByOrgId])
    leave the client objects as they are, the client objects after a call
    of any operation are those before it, whatever the call returns. *)
Theorem client_unchanged (o : operation) (w : World Net) :
  frames_clients h -> clients (final (run h (denote o) w)) = clients w.
Proof. intros Hh. apply run_readonly; [done|apply denote_readonly]. Qed.

(** C8.  An operation that receives a response with a status code other
    than 200 stops there: the response is the last entry of its trace and
    the trace has no read of a body.  A body is read only after a
    response with status code 200, and it is the body of that response. *)
Theorem failure_leaves_body_unread (o : operation) (w : World Net) :
  let t := trace (run h (denote o) w) in
  (∀ c req resp,
     In (EvDo c req resp None) t -> StatusCode resp ≠ 200 ->
     last t = Some (EvDo c req resp None) ∧
     ∀ r data err, ¬ In (EvReadAll r data err) t) ∧
  (∀ r data err,
     In (EvReadAll r data err) t ->
     ∃ c req resp,
       In (EvDo c req resp None) t ∧ StatusCode resp = 200 ∧ r = Body resp).
Proof.
  cbn zeta. pose proof (run_stage o w) as Hs.
  destruct (run h (denote o) w) as [[r w'] t]. unfold result, trace in *.
  cbn in *. split.
  - intros c req resp HIn Hcode.
    inversion Hs; subst; cbn in HIn; intuition; simplify_eq;
      cbn in *; intuition; simplify_eq.
  - intros b data err HIn.
    inversion Hs; subst; cbn in HIn; intuition; simplify_eq.
    eexists _, _, _. cbn. eauto.
Qed.

(** C9.  [Dashboards] is the program that returns an empty, non-nil slice
    and the error "not implemented" without any call: for every
    organisation and client, no request is built or sent. *)
Theorem Dashboards_not_implemented (o : Org) (c : ptr) (w : World Net) :
  Org.Dashboards o c = Ret (Some [], Some (errorString "not implemented")) ∧
  run h (Org.Dashboards o c) w =
    ((Some [], Some (errorString "not implemented")), w, []).
Proof. done. Qed.

(** C10.  [Users] returns the embedded [User] of every element of the
    receiver, in order: a slice of the same length whose element at each
    index is the [User] of the receiver's element at that index; on a nil
    or empty receiver it returns an empty slice that is not nil. *)
Theorem Users_in_order (ousers : OrgUsers User) :
  OrgUsers.Users ousers = Some (map OrgUser_User (elems ousers)) ∧
  length (elems (OrgUsers.Users ousers)) = length (elems ousers) ∧
  (∀ i : nat, elems (OrgUsers.Users ousers) !! i = OrgUser_User <$> elems ousers !! i) ∧
  OrgUsers.Users (None : OrgUsers User) = Some [] ∧
  OrgUsers.Users (Some [] : OrgUsers User) = Some [].
Proof.
  assert (OrgUsers.Users ousers = Some (map OrgUser_User (elems ousers))) as Heq.
  { unfold OrgUsers.Users. rewrite Users_fold. by destruct (elems ousers). }
  rewrite Heq. cbn. split_and!; [done| |intros i|done|done].
  - by rewrite length_map.
  - by rewrite list_lookup_fmap.
Qed.
End Proofs.

(** * The claims on concrete runs

    The operations are run with the JSON reader and writer of [GoJSON]
    against the client and remote side of [Scripted]. *)

Section Examples.
Import Scripted.
Local Abbreviation run1 := (run (Net := Net) handler).
Local Abbreviation denote1 := (@denote unit GoJSON.json_unit).

(** A server answering 404 to [DeleteAnnotation]: the error carries the
    status text and the message returned is empty. *)
Lemma status_failure_returned_witness :
  result (run1 (denote1 (OpDeleteAnnotation grafana_ptr 7)) (answering 404 "404 Not Found" "{}"))
  = ("", Some (errorString "404 Not Found")).
Proof.
  pose proof (status_failure_returned (User := unit) handler
    (OpDeleteAnnotation grafana_ptr 7) (answering 404 "404 Not Found" "{}") grafana_ptr
    (request "DELETE" "/api/annotations/7" ∅ (Some []))
    (response 404 "404 Not Found" "{}")) as H.
  destruct H as [H _].
  - vm_compute. right. left. reflexivity.
  - vm_compute. discriminate.
  - exact H.
Defined.

(** C1, as stated, fails: on a 404 response [NewOrg] returns an [Org]
    carrying the name it was given, not [Org{}]. *)
Lemma zero_result_counterexample :
  ¬ (∀ (User : Type) (J : JSON User) (Net : Type) (h : Handler Net)
       (o : operation) (w : World Net) c req resp,
       In (EvDo c req resp None) (trace (run h (@denote User J o) w)) ->
       StatusCode resp ≠ 200 ->
       @zero_result User o (errors_New (Status resp))
         (result (run h (@denote User J o) w))).
Proof.
  intros H.
  specialize (H unit GoJSON.json_unit Net handler (OpNewOrg grafana_ptr "acme")
    (answering 404 "404 Not Found" "{}") grafana_ptr
    (request "POST" "/api/orgs"
       ∅ (Some (list_byte_of_string (GoJSON.enc_Org {| Id := 0; Name := "acme" |}))))
    (response 404 "404 Not Found" "{}")).
  assert (result (run1 (denote1 (OpNewOrg grafana_ptr "acme")) (answering 404 "404 Not Found" "{}"))
          = ({| Id := 0; Name := "acme" |}, Some (errorString "404 Not Found")))
    as Hrun by (vm_compute; reflexivity).
  rewrite Hrun in H. cbn in H.
  assert (({| Id := 0; Name := "acme" |}, Some (errorString "404 Not Found"))
          = (Org_zero, errors_New "404 Not Found")) as Heq.
  { apply H.
    - vm_compute. right. left. reflexivity.
    - discriminate. }
  discriminate Heq.
Qed.

(** C2 (what the code does).  [NewOrg] against a server that answers 200
    with a body that is not JSON: [json.Unmarshal] reports an error, and
    [NewOrg] returns a nil error with the [Org] it built, its [Id] left
    at 0. *)
Theorem NewOrg_drops_unmarshal_error :
  (Unmarshal_orgIdBody (list_byte_of_string "not json") {| body_ID := 0 |}).2
    = Some (errorString "json: invalid or unexpected end of JSON input") ∧
  result (run1 (Client.NewOrg grafana_ptr "acme") (answering 200 "200 OK" "not json"))
    = ({| Id := 0; Name := "acme" |}, None).
Proof. split; vm_compute; reflexivity. Qed.

(** The list [[{"id":1,...},{"id":5,...}]]: fetching ID 5 returns that
    record, fetching ID 7 the "not found" error. *)
Lemma Annotation_scans_collection_witness :
  let w := answering 200 "200 OK" two_annotations in
  result (run1 (Client.Annotation grafana_ptr 5 ∅) w) = (annotation 5 "b", None) ∧
  result (run1 (Client.Annotation grafana_ptr 7 ∅) w)
    = (Annotation_zero, Some (errorString "annotation 7 not found")).
Proof.
  intros w.
  assert (result (run1 (Client.Annotations grafana_ptr ∅) w)
          = (Some [annotation 1 "a"; annotation 5 "b"], None)) as Hfetched
    by (vm_compute; reflexivity).
  split.
  - destruct (Annotation_scans_collection (User := unit) handler grafana_ptr 5 ∅ w _
                Hfetched) as (_ & _ & Hfound & _).
    destruct Hfound as (a & before & after & Hl & Hb & Ha & Hr).
    { exists (annotation 5 "b"). split; [right; left|]; reflexivity. }
    rewrite Hr. cbn in Hl.
    destruct before as [|b0 [|b1 before]]; cbn in Hl.
    + injection Hl as <- _. discriminate Ha.
    + injection Hl as _ <- _. reflexivity.
    + injection Hl as _ _ Hl. destruct before; discriminate Hl.
  - destruct (Annotation_scans_collection (User := unit) handler grafana_ptr 7 ∅ w _
                Hfetched) as (_ & _ & _ & Hnone).
    apply Hnone. intros a [<-|[<-|[]]]; discriminate.
Defined.

(** [AddUser] with the role "Owner" makes no call; with the role "Admin"
    it builds the request and sends it. *)
Lemma AddUser_checks_role_witness :
  let o := {| Id := 3; Name := "acme" |} in
  let w := answering 200 "200 OK" "{}" in
  run1 (Org.AddUser o grafana_ptr "bob" "Owner") w
    = (Some (errorString "invalid role name: Owner"), w, []) ∧
  ∃ req err rest,
    trace (run1 (Org.AddUser o grafana_ptr "bob" "Admin") w)
    = EvNewRequest grafana_ptr "POST" "/api/orgs/3/users" ∅
        (Some (list_byte_of_string
                 (GoJSON.enc_StringMap {[ "role" := "Admin"; "loginOrEmail" := "bob" ]})))
        req err :: rest ∧
    (err = None -> ∃ resp err' rest', rest = EvDo grafana_ptr req resp err' :: rest').
Proof.
  intros o w.
  destruct (AddUser_checks_role (User := unit) handler o grafana_ptr "bob" "Owner" w)
    as [Hinvalid _].
  destruct (AddUser_checks_role (User := unit) handler o grafana_ptr "bob" "Admin" w)
    as [_ Hvalid].
  split.
  - apply Hinvalid; discriminate.
  - apply Hvalid; [left|]; reflexivity.
Defined.

(** A server answering 200 with the body [{"id": 42}]: [NewAnnotation]
    returns 42 and a nil error. *)
Lemma NewAnnotation_returns_id_witness :
  result (run1 (Client.NewAnnotation grafana_ptr (Some (annotation 0 "deploy")))
            (answering 200 "200 OK" id_42))
  = (42, None).
Proof.
  rewrite (NewAnnotation_returns_id (User := unit) handler grafana_ptr
             (Some (annotation 0 "deploy")) (answering 200 "200 OK" id_42)
             (list_byte_of_string (GoJSON.enc_Annotation (annotation 0 "deploy")))
             (request "POST" "/api/annotations" ∅
                (Some (list_byte_of_string
                         (GoJSON.enc_Annotation (annotation 0 "deploy")))))
             (answering 200 "200 OK" id_42)
             (response 200 "200 OK" id_42)
             (answering 200 "200 OK" id_42)) by reflexivity.
  vm_compute. reflexivity.
Defined.

(** The client of [Scripted] after [NewOrg], on a failing call. *)
Lemma client_unchanged_witness :
  clients (final (run1 (denote1 (OpNewOrg grafana_ptr "acme"))
                    (answering 500 "500 Internal Server Error" "")))
  = {[ grafana_ptr := grafana ]}.
Proof.
  apply (client_unchanged (User := unit) handler
           (OpNewOrg grafana_ptr "acme")
           (answering 500 "500 Internal Server Error" "")).
  split; [|split].
  - intros c method path query body w. cbn. unfold newRequest_impl.
    destruct (clients w !! c); reflexivity.
  - intros c req w. reflexivity.
  - intros c id w. reflexivity.
Defined.

(** A server answering 404 to [Org.Users]: the response ends the trace
    and no body is read. *)
Lemma failure_leaves_body_unread_witness :
  let t := trace (run1 (denote1 (OpOrgUsers {| Id := 3; Name := "acme" |} grafana_ptr))
                    (answering 404 "404 Not Found" "{}")) in
  let sent := EvDo grafana_ptr (request "GET" "/api/orgs/3/users" ∅ None)
                (response 404 "404 Not Found" "{}") None in
  last t = Some sent ∧ ∀ r data err, ¬ In (EvReadAll r data err) t.
Proof.
  intros t sent.
  destruct (failure_leaves_body_unread (User := unit) handler
              (OpOrgUsers {| Id := 3; Name := "acme" |} grafana_ptr)
              (answering 404 "404 Not Found" "{}")) as [H _].
  apply H.
  - vm_compute. right. left. reflexivity.
  - vm_compute. discriminate.
Defined.
End Examples.

(** * Further properties of the operations *)

Section Executor.
Context {User : Type} `{!JSON User} {Net : Type} (h : Handler Net).
Local Abbreviation denote := (@denote User _).
Local Abbreviation prepare := (@prepare User _).
Local Abbreviation status_failure := (@status_failure User).
Local Abbreviation returned_error := (@returned_error User).

Lemma run_denote (o : operation) (w : World Net) :
  run h (denote o) w = run h (execute (prepare o)) w.
Proof.
  destruct o; cbn; unfold_ops; cbn;
    try match goal with
        | |- context [Marshal_Org ?org] => destruct (Marshal_Org org) as [? ?]; cbn
        end;
    repeat run_step; try reflexivity.
  all: rewrite Annotation_range_find;
    match goal with H : List.find _ _ = _ |- _ => rewrite H end; reflexivity.
Qed.

Lemma run_executed {R} (p : plan R) (w : World Net) :
  executed p (result (run h (execute p) w)) (trace (run h (execute p) w)).
Proof.
  destruct p as [r|c id ret|c method path query body failure fin];
    unfold result, trace; cbn.
  - constructor.
  - destruct (on_DataSourcesByOrgId h c id w) as [r w1]. cbn.
    apply (executed_forward c id ret r).
  - repeat run_step; by constructor.
Qed.

Lemma denote_executed (o : operation) (w : World Net) :
  executed (prepare o) (result (run h (denote o) w)) (trace (run h (denote o) w)).
Proof. rewrite run_denote. apply run_executed. Qed.
End Executor.

Section Further.
Context {User : Type} `{!JSON User} {Net : Type} (h : Handler Net).
Local Abbreviation denote := (@denote User _).
Local Abbreviation prepare := (@prepare User _).
Local Abbreviation status_failure := (@status_failure User).
Local Abbreviation returned_error := (@returned_error User).

(** *** What the plans of the operations hold *)

Ltac plan_inj H :=
  cbn in H;
  repeat match type of H with
         | context [match ?x with _ => _ end] => destruct x
         | context [if ?x then _ else _] => destruct x
         end;
  unfold decoding in H; try discriminate H;
  let Hfin := fresh "Hfin" in
  injection H as ? ? ? ? ? ? Hfin; subst;
  try discriminate Hfin; try (injection Hfin as ?; subst); cbn.

Ltac prepare_cases o H := destruct o; plan_inj H.

(** Membership of an event in a trace given by its list of calls. *)
Ltac in_trace H :=
  cbn in H; intuition; try discriminate;
  repeat match goal with
         | E : EvNewRequest _ _ _ _ _ _ _ = EvNewRequest _ _ _ _ _ _ _ |- _ =>
             injection E as ? ? ? ? ? ? ?
         | E : EvDo _ _ _ _ = EvDo _ _ _ _ |- _ => injection E as ? ? ? ?
         | E : EvReadAll _ _ _ = EvReadAll _ _ _ |- _ => injection E as ? ? ?
         end;
  simplify_eq.

Lemma prepare_failure (o : operation) c method path query body failure fin :
  prepare o = Send c method path query body failure fin ->
  ∀ err, failure err = status_failure o err.
Proof. intros H err. prepare_cases o H; reflexivity. Qed.

Lemma prepare_read_error (o : operation) c method path query body failure k :
  prepare o = Send c method path query body failure (Read k) ->
  ∀ data e,
    returned_error o (k data (Some e)) = Some e ∧
    ((∀ c' name, o ≠ OpNewOrg c' name) -> k data (Some e) = status_failure o (Some e)).
Proof.
  intros H data e. prepare_cases o H; (split; [reflexivity|]); try reflexivity.
  intros Hnot. exfalso. by eapply Hnot.
Qed.

Lemma read_result (o : operation) (w : World Net) b data err :
  In (EvReadAll b data err) (trace (run h (denote o) w)) ->
  ∃ c method path query body failure k,
    prepare o = Send c method path query body failure (Read k) ∧
    result (run h (denote o) w) = k data err.
Proof.
  intros HIn. pose proof (denote_executed h o w) as Hex.
  destruct (run h (denote o) w) as [[r w'] t]. unfold result, trace in *. cbn in *.
  remember (prepare o) as pl eqn:Hpl.
  destruct Hex; in_trace HIn.
  by eexists _, _, _, _, _, _, _.
Qed.

Lemma itoa_inj (i j : Z) : itoa i = itoa j -> i = j.
Proof.
  unfold itoa. intros Heq. apply DecimalZ.to_int_inj.
  assert (∀ n, Z.to_int n ≠ Decimal.Pos Decimal.Nil ∧ Z.to_int n ≠ Decimal.Neg Decimal.Nil)
    as Hnonnil.
  { intros [|p|p]; cbn; split; try discriminate;
      intros [= Hp]; by apply DecimalPos.Unsigned.to_uint_nonnil in Hp. }
  destruct (Hnonnil i) as [Hi1 Hi2], (Hnonnil j) as [Hj1 Hj2].
  pose proof (NilZero.isi _ Hi1 Hi2) as Hi. pose proof (NilZero.isi _ Hj1 Hj2) as Hj.
  rewrite Heq in Hi. congruence.
Qed.

(** A formatted integer starts with a minus sign or a digit. *)
Lemma itoa_first (n : Z) :
  ∃ a s, itoa n = String a s ∧ (nat_of_ascii a <= 57)%nat.
Proof.
  assert (∀ d, ∃ a s, NilZero.string_of_uint d = String a s ∧ (nat_of_ascii a <= 57)%nat)
    as Huint.
  { intros d. destruct d; cbn; eexists _, _; (split; [reflexivity|]);
      apply Nat.leb_le; reflexivity. }
  unfold itoa. destruct n as [|p|p]; cbn.
  - eexists _, _. split; [reflexivity|]. apply Nat.leb_le. reflexivity.
  - apply Huint.
  - eexists _, _. split; [reflexivity|]. apply Nat.leb_le. reflexivity.
Qed.

Lemma requested_path_Send (o : operation) (w : World Net) c method path query body
    failure fin :
  prepare o = Send c method path query body failure fin ->
  requested_path (run h (denote o) w) = Some path.
Proof.
  intros Hp. rewrite run_denote, Hp. unfold requested_path, trace. cbn.
  repeat run_step; reflexivity.
Qed.

(** *** The properties *)

(** X1.  Every operation of the two files runs as the one executor fed with
    the plan of the operation: for every handler and world, the value
    returned, the final world and the calls made are the same. *)
Theorem operations_run_as_executor (o : operation) (w : World Net) :
  run h (denote o) w = run h (execute (prepare o)) w.
Proof. apply run_denote. Qed.

(** X2.  When [newRequest] fails, the operation returns its error, with the
    value it returns on every failure, and makes no other call: nothing is
    sent. *)
Theorem newRequest_error_returned (o : operation) (w : World Net)
    c method path query body req e :
  In (EvNewRequest c method path query body req (Some e)) (trace (run h (denote o) w)) ->
  result (run h (denote o) w) = status_failure o (Some e) ∧
  trace (run h (denote o) w) = [EvNewRequest c method path query body req (Some e)].
Proof.
  intros HIn. pose proof (denote_executed h o w) as Hex.
  destruct (run h (denote o) w) as [[r w'] t]. unfold result, trace in *. cbn in *.
  remember (prepare o) as pl eqn:Hpl.
  destruct Hex; in_trace HIn; try done.
  by apply (prepare_failure o _ _ _ _ _ _ _ (eq_sym Hpl)).
Qed.

(** X3.  When [Do] fails (a transport error), the operation returns that
    error, with the value it returns on every failure; the failed [Do] is
    its last call, and no body is read. *)
Theorem Do_error_returned (o : operation) (w : World Net) c req resp e :
  In (EvDo c req resp (Some e)) (trace (run h (denote o) w)) ->
  result (run h (denote o) w) = status_failure o (Some e) ∧
  last (trace (run h (denote o) w)) = Some (EvDo c req resp (Some e)) ∧
  ∀ r data err, ¬ In (EvReadAll r data err) (trace (run h (denote o) w)).
Proof.
  intros HIn. pose proof (denote_executed h o w) as Hex.
  destruct (run h (denote o) w) as [[r w'] t]. unfold result, trace in *. cbn in *.
  remember (prepare o) as pl eqn:Hpl.
  destruct Hex; in_trace HIn; try done.
  - by apply (prepare_failure o _ _ _ _ _ _ _ (eq_sym Hpl)).
  - match goal with H : In _ _ |- _ => in_trace H end.
Qed.

(** X4.  When reading the body fails, the operation returns the read
    error.  Every operation but [NewOrg] returns with it the value it
    returns on every failure, without looking at the bytes received. *)
Theorem read_error_returned (o : operation) (w : World Net) b data e :
  In (EvReadAll b data (Some e)) (trace (run h (denote o) w)) ->
  returned_error o (result (run h (denote o) w)) = Some e ∧
  ((∀ c name, o ≠ OpNewOrg c name) ->
     result (run h (denote o) w) = status_failure o (Some e)).
Proof.
  intros HIn.
  destruct (read_result o w b data (Some e) HIn)
    as (c & method & path & query & body & failure & k & Hp & ->).
  apply (prepare_read_error o _ _ _ _ _ _ _ Hp).
Qed.

(** X5.  An operation makes at most one round trip and never retries: its
    trace has at most three calls; a [newRequest] is its first call; a [Do]
    is its second call, for the same client and on the request the first
    call returned; a read is its third call, of the body of the response
    [Do] returned; and it never assigns through the client. *)
Theorem single_round_trip (o : operation) (w : World Net) :
  let t := trace (run h (denote o) w) in
  (length t <= 3)%nat ∧
  (∀ c method path query body req err,
     In (EvNewRequest c method path query body req err) t ->
     ∃ rest, t = EvNewRequest c method path query body req err :: rest) ∧
  (∀ c req resp err,
     In (EvDo c req resp err) t ->
     ∃ method path query body rest,
       t = EvNewRequest c method path query body req None
           :: EvDo c req resp err :: rest) ∧
  (∀ r data err,
     In (EvReadAll r data err) t ->
     ∃ c method path query body req resp,
       t = [EvNewRequest c method path query body req None; EvDo c req resp None;
            EvReadAll r data err] ∧ r = Body resp) ∧
  (∀ c v, ¬ In (EvStore c v) t).
Proof.
  cbn zeta. pose proof (run_stage h o w) as Hs.
  destruct (run h (denote o) w) as [[r w'] t]. unfold result, trace in *. cbn in *.
  inversion Hs; subst; cbn; split_and!; try lia; intros;
    try match goal with H : In _ _ |- _ => in_trace H end;
    try match goal with H : _ ∨ _ |- _ => in_trace H end;
    try match goal with H : False |- _ => destruct H end;
    try (intros Hstore; in_trace Hstore; fail);
    eauto 10.
Qed.

(** X6.  Whatever happens, the [Org] that [NewOrg] returns carries the name
    it was given; its [Id] is 0 unless a body was read. *)
Theorem NewOrg_keeps_name (c : ptr) (name : string) (w : World Net) :
  let out := run h (Client.NewOrg c name) w in
  Name (result out).1 = name ∧
  ((∀ r data err, ¬ In (EvReadAll r data err) (trace out)) -> Id (result out).1 = 0).
Proof.
  cbn zeta. unfold Client.NewOrg, result, trace.
  destruct (Marshal_Org _) as [data merr]. cbn.
  repeat run_step; (split; [reflexivity|]); try reflexivity.
  all: intros Hno; exfalso; eapply Hno; right; right; left; reflexivity.
Qed.

(** X7.  A nil error from [Annotation] guarantees the annotation returned:
    it has the ID asked for and is an element of the list that
    [Annotations] returned, itself with a nil error. *)
Theorem Annotation_sound (c : ptr) (id : Z) (params : Values) (w : World Net)
    (a : Annotation) :
  result (run h (Client.Annotation c id params) w) = (a, None) ->
  ID a = id ∧
  In a (elems (result (run h (Client.Annotations c params) w)).1) ∧
  (result (run h (Client.Annotations c params) w)).2 = None.
Proof.
  unfold Client.Annotation. rewrite run_bind. unfold error.
  match goal with |- context [@run ?N ?A h ?p w] => generalize (@run N A h p w) end.
  intros [[[as_ e] w1] t1]. unfold result. cbn.
  destruct e as [e|]; cbn; [discriminate|].
  rewrite Annotation_range_find.
  destruct (List.find (fun a => ID a =? id) (elems as_)) as [a'|] eqn:Hfind; cbn;
    [|discriminate].
  intros [= ->]. apply find_some in Hfind as [Hin Ha]. split_and!; [lia|done|done].
Qed.

(** X8.  When [Annotations] returns an error, [Annotation] returns that
    error with [Annotation{}], having made the same calls and nothing
    more. *)
Theorem Annotation_propagates_error (c : ptr) (id : Z) (params : Values)
    (w : World Net) (as_ : slice Annotation) (e : goerror) :
  result (run h (Client.Annotations c params) w) = (as_, Some e) ->
  run h (Client.Annotation c id params) w =
  ((Annotation_zero, Some e), final (run h (Client.Annotations c params) w),
   trace (run h (Client.Annotations c params) w)).
Proof.
  unfold Client.Annotation. rewrite run_bind. unfold error.
  match goal with |- context [@run ?N ?A h ?p w] => generalize (@run N A h p w) end.
  intros [[[as' e'] w1] t1]. unfold result, final, trace. cbn.
  intros [= -> ->]. cbn. by rewrite app_nil_r.
Qed.

(** X9.  The operations that change membership or delete do not parse the
    response: once the body of a 200 response is read, [AddUser] and
    [RemoveUser] return the read error and nothing else, whatever the bytes
    are; [DeleteOrg] returns nil on a 200 response without reading its
    body. *)
Theorem writes_ignore_body (o : Org) (c : ptr) (username role : string)
    (userID id : Z) (w : World Net) :
  (∀ b data err,
     In (EvReadAll b data err) (trace (run h (Org.AddUser o c username role) w)) ->
     result (run h (Org.AddUser o c username role) w) = err) ∧
  (∀ b data err,
     In (EvReadAll b data err) (trace (run h (Org.RemoveUser o c userID) w)) ->
     result (run h (Org.RemoveUser o c userID) w) = err) ∧
  (∀ c' req resp,
     In (EvDo c' req resp None) (trace (run h (Client.DeleteOrg c id) w)) ->
     StatusCode resp = 200 ->
     result (run h (Client.DeleteOrg c id) w) = None ∧
     ∀ b data err, ¬ In (EvReadAll b data err) (trace (run h (Client.DeleteOrg c id) w))).
Proof.
  split_and!.
  - intros b data err HIn.
    destruct (read_result (OpOrgAddUser o c username role) w b data err HIn)
      as (c' & method & path & query & body & failure & k & Hp & Hr).
    etransitivity; [exact Hr|]. by plan_inj Hp.
  - intros b data err HIn.
    destruct (read_result (OpOrgRemoveUser o c userID) w b data err HIn)
      as (c' & method & path & query & body & failure & k & Hp & Hr).
    etransitivity; [exact Hr|]. by plan_inj Hp.
  - intros c' req resp. unfold Client.DeleteOrg, result, trace. cbn.
    repeat run_step; cbn; intuition; simplify_eq.
Qed.

(** X10.  On a 200 response whose body is read without error,
    [UpdateAnnotation], [PatchAnnotation], [DeleteAnnotation] and
    [DeleteAnnotationByRegionID] return the [Message] field that
    [json.Unmarshal] fills from the body, with the error of
    [json.Unmarshal]. *)
Theorem message_operations_decode (c : ptr) (id : Z) (a : option Annotation)
    (w : World Net) b data :
  let decoded := Unmarshal_messageResult data {| result_Message := "" |} in
  let expected := (result_Message decoded.1, decoded.2) in
  (In (EvReadAll b data None) (trace (run h (Client.UpdateAnnotation c id a) w)) ->
     result (run h (Client.UpdateAnnotation c id a) w) = expected) ∧
  (In (EvReadAll b data None) (trace (run h (Client.PatchAnnotation c id a) w)) ->
     result (run h (Client.PatchAnnotation c id a) w) = expected) ∧
  (In (EvReadAll b data None) (trace (run h (Client.DeleteAnnotation c id) w)) ->
     result (run h (Client.DeleteAnnotation c id) w) = expected) ∧
  (In (EvReadAll b data None)
      (trace (run h (Client.DeleteAnnotationByRegionID c id) w)) ->
     result (run h (Client.DeleteAnnotationByRegionID c id) w) = expected).
Proof.
  cbn zeta. split_and!; intros HIn.
  - destruct (read_result (OpUpdateAnnotation c id a) w b data None HIn)
      as (c' & method & path & query & body & failure & k & Hp & Hr).
    etransitivity; [exact Hr|]. plan_inj Hp. by destruct (Unmarshal_messageResult _ _).
  - destruct (read_result (OpPatchAnnotation c id a) w b data None HIn)
      as (c' & method & path & query & body & failure & k & Hp & Hr).
    etransitivity; [exact Hr|]. plan_inj Hp. by destruct (Unmarshal_messageResult _ _).
  - destruct (read_result (OpDeleteAnnotation c id) w b data None HIn)
      as (c' & method & path & query & body & failure & k & Hp & Hr).
    etransitivity; [exact Hr|]. plan_inj Hp. by destruct (Unmarshal_messageResult _ _).
  - destruct (read_result (OpDeleteAnnotationByRegionID c id) w b data None HIn)
      as (c' & method & path & query & body & failure & k & Hp & Hr).
    etransitivity; [exact Hr|]. plan_inj Hp. by destruct (Unmarshal_messageResult _ _).
Qed.

(** X11.  On a 200 response whose body is read without error, the
    operations that fetch return what [json.Unmarshal] makes of the body,
    with its error: [Annotations], [Org.Users] and [Orgs] decode into an
    empty non-nil slice, [Org] and [OrgByName] into [Org{}]. *)
Theorem fetches_decode (o : Org) (c : ptr) (params : Values) (id : Z)
    (name : string) (w : World Net) b data :
  (In (EvReadAll b data None) (trace (run h (Client.Annotations c params) w)) ->
     result (run h (Client.Annotations c params) w)
     = Unmarshal_Annotations data (Some [])) ∧
  (In (EvReadAll b data None) (trace (run h (Org.Users o c) w)) ->
     result (run h (Org.Users o c) w) = Unmarshal_OrgUsers data (Some [])) ∧
  (In (EvReadAll b data None) (trace (run h (Client.Orgs c) w)) ->
     result (run h (Client.Orgs c) w) = Unmarshal_Orgs data (Some [])) ∧
  (In (EvReadAll b data None) (trace (run h (Client.Org c id) w)) ->
     result (run h (Client.Org c id) w) = Unmarshal_Org data Org_zero) ∧
  (In (EvReadAll b data None) (trace (run h (Client.OrgByName c name) w)) ->
     result (run h (Client.OrgByName c name) w) = Unmarshal_Org data Org_zero).
Proof.
  split_and!; intros HIn.
  - destruct (read_result (OpAnnotations c params) w b data None HIn)
      as (c' & method & path & query & body & failure & k & Hp & Hr).
    etransitivity; [exact Hr|]. by plan_inj Hp.
  - destruct (read_result (OpOrgUsers o c) w b data None HIn)
      as (c' & method & path & query & body & failure & k & Hp & Hr).
    etransitivity; [exact Hr|]. by plan_inj Hp.
  - destruct (read_result (OpOrgs c) w b data None HIn)
      as (c' & method & path & query & body & failure & k & Hp & Hr).
    etransitivity; [exact Hr|]. by plan_inj Hp.
  - destruct (read_result (OpOrg c id) w b data None HIn)
      as (c' & method & path & query & body & failure & k & Hp & Hr).
    etransitivity; [exact Hr|]. by plan_inj Hp.
  - destruct (read_result (OpOrgByName c name) w b data None HIn)
      as (c' & method & path & query & body & failure & k & Hp & Hr).
    etransitivity; [exact Hr|]. by plan_inj Hp.
Qed.

(** X12.  On a 200 response whose body is read without error,
    [NewGraphiteAnnotation] returns the [ID] field that [json.Unmarshal]
    fills from the key "id", with the error of [json.Unmarshal]; [NewOrg]
    returns a nil error and the [Org] with the given name whose [Id] is the
    field filled from the key "orgId". *)
Theorem creations_return_id (c : ptr) (gfa : option GraphiteAnnotation)
    (name : string) (w : World Net) b data :
  (In (EvReadAll b data None) (trace (run h (Client.NewGraphiteAnnotation c gfa) w)) ->
     let decoded := Unmarshal_idResult data {| result_ID := 0 |} in
     result (run h (Client.NewGraphiteAnnotation c gfa) w)
     = (result_ID decoded.1, decoded.2)) ∧
  (In (EvReadAll b data None) (trace (run h (Client.NewOrg c name) w)) ->
     let decoded := Unmarshal_orgIdBody data {| body_ID := 0 |} in
     result (run h (Client.NewOrg c name) w)
     = ({| Id := body_ID decoded.1; Name := name |}, None)).
Proof.
  split_and!; intros HIn; cbn zeta.
  - destruct (read_result (OpNewGraphiteAnnotation c gfa) w b data None HIn)
      as (c' & method & path & query & body & failure & k & Hp & Hr).
    etransitivity; [exact Hr|]. plan_inj Hp. by destruct (Unmarshal_idResult _ _).
  - destruct (read_result (OpNewOrg c name) w b data None HIn)
      as (c' & method & path & query & body & failure & k & Hp & Hr).
    etransitivity; [exact Hr|]. by plan_inj Hp.
Qed.
End Further.

Section Paths.
Context {User : Type} `{!JSON User} {Net : Type} (h : Handler Net).

Ltac path_of o :=
  erewrite (requested_path_Send h o) by reflexivity.

Ltac not_itoa H n :=
  let a := fresh "a" in
  let s := fresh "s" in
  let Ha := fresh "Ha" in
  let Hle := fresh "Hle" in
  destruct (itoa_first n) as (a & s & Ha & Hle);
  rewrite Ha in H; try discriminate H;
  injection H as -> _; vm_compute in Hle; lia.

(** X13.  The paths built from an ID address one resource each: two calls
    of [DeleteAnnotation], of [DeleteAnnotationByRegionID], of [Org] or of
    [DeleteOrg] request the same path only for the same ID; the path of an
    annotation is never the path of a region, and the path of an
    organisation given by ID is never one of [OrgByName] nor that of
    [Orgs]. *)
Theorem id_paths_distinct (c : ptr) (i j : Z) (name : string) (w w' : World Net) :
  (requested_path (run h (Client.DeleteAnnotation c i) w)
   = requested_path (run h (Client.DeleteAnnotation c j) w') -> i = j) ∧
  (requested_path (run h (Client.DeleteAnnotationByRegionID c i) w)
   = requested_path (run h (Client.DeleteAnnotationByRegionID c j) w') -> i = j) ∧
  (requested_path (run h (Client.Org c i) w)
   = requested_path (run h (Client.Org c j) w') -> i = j) ∧
  (requested_path (run h (Client.DeleteOrg c i) w)
   = requested_path (run h (Client.DeleteOrg c j) w') -> i = j) ∧
  requested_path (run h (Client.DeleteAnnotation c i) w)
  ≠ requested_path (run h (Client.DeleteAnnotationByRegionID c j) w') ∧
  requested_path (run h (Client.Org c i) w)
  ≠ requested_path (run h (Client.OrgByName c name) w') ∧
  requested_path (run h (Client.Org c i) w)
  ≠ requested_path (run h (Client.Orgs c) w').
Proof.
  change (Client.DeleteAnnotation c i) with (denote (OpDeleteAnnotation c i)).
  change (Client.DeleteAnnotation c j) with (denote (OpDeleteAnnotation c j)).
  change (Client.DeleteAnnotationByRegionID c i)
    with (denote (OpDeleteAnnotationByRegionID c i)).
  change (Client.DeleteAnnotationByRegionID c j)
    with (denote (OpDeleteAnnotationByRegionID c j)).
  change (Client.Org c i) with (denote (OpOrg c i)).
  change (Client.Org c j) with (denote (OpOrg c j)).
  change (Client.DeleteOrg c i) with (denote (OpDeleteOrg c i)).
  change (Client.DeleteOrg c j) with (denote (OpDeleteOrg c j)).
  change (Client.OrgByName c name) with (denote (OpOrgByName c name)).
  change (Client.Orgs c) with (denote (OpOrgs c)).
  path_of (OpDeleteAnnotation c i). path_of (OpDeleteAnnotation c j).
  path_of (OpDeleteAnnotationByRegionID c i).
  path_of (OpDeleteAnnotationByRegionID c j).
  path_of (OpOrg c i). path_of (OpOrg c j).
  path_of (OpDeleteOrg c i). path_of (OpDeleteOrg c j).
  path_of (OpOrgByName c name). path_of (OpOrgs c).
  split_and!; intros H; cbn in H; injection H as H;
    try (by apply itoa_inj); not_itoa H i.
Qed.

(** X14.  [Users] commutes with [append]: the users of a list extended by
    one member are the users of the list extended by the user of that
    member. *)
Theorem Users_append (ousers : OrgUsers User) (ou : OrgUser User) :
  OrgUsers.Users (append ousers ou) = append (OrgUsers.Users ousers) (OrgUser_User ou).
Proof.
  unfold OrgUsers.Users. rewrite !Users_fold.
  change (elems (append ousers ou)) with (elems ousers ++ [ou])%list.
  destruct (elems ousers) as [|x l]; cbn; [done|].
  unfold append. cbn. by rewrite map_app.
Qed.
End Paths.

(** * The further properties on concrete runs *)

Section MoreExamples.
Import Scripted.
Local Abbreviation run1 := (run (Net := Net) handler).
Local Abbreviation denote1 := (@denote unit GoJSON.json_unit).

(** [Org] through a pointer to no client: [newRequest] fails, its error is
    returned and nothing is sent. *)
Lemma newRequest_error_returned_witness :
  let out := run1 (denote1 (OpOrg 2%positive 7)) (answering 200 "200 OK" "{}") in
  result out = (Org_zero, Some (errorString "no client")) ∧
  trace out = [EvNewRequest 2%positive "GET" "/api/orgs/7" ∅ None no_request
                 (Some (errorString "no client"))].
Proof.
  apply (newRequest_error_returned (User := unit) handler (OpOrg 2%positive 7)
           (answering 200 "200 OK" "{}") 2%positive "GET" "/api/orgs/7" ∅ None
           no_request (errorString "no client")).
  vm_compute. left. reflexivity.
Defined.

(** [Orgs] against a server that cannot be reached. *)
Lemma Do_error_returned_witness :
  let out := run1 (denote1 (OpOrgs grafana_ptr)) (unreachable "connection refused") in
  let sent := EvDo grafana_ptr (request "GET" "/api/orgs/" ∅ None) (response 0 "" "")
                (Some (errorString "connection refused")) in
  result out = (Some [], Some (errorString "connection refused")) ∧
  last (trace out) = Some sent ∧
  ∀ r data err, ¬ In (EvReadAll r data err) (trace out).
Proof.
  apply (Do_error_returned (User := unit) handler (OpOrgs grafana_ptr)
           (unreachable "connection refused") grafana_ptr
           (request "GET" "/api/orgs/" ∅ None) (response 0 "" "")
           (errorString "connection refused")).
  vm_compute. right. left. reflexivity.
Defined.

(** [Orgs] against a server that breaks the connection inside the body. *)
Lemma read_error_returned_witness :
  result (run1 (denote1 (OpOrgs grafana_ptr)) (truncating "[{" "unexpected EOF"))
  = (Some [], Some (errorString "unexpected EOF")).
Proof.
  destruct (read_error_returned (User := unit) handler (OpOrgs grafana_ptr)
              (truncating "[{" "unexpected EOF")
              {| received := list_byte_of_string "[{";
                 readErr := errors_New "unexpected EOF" |}
              (list_byte_of_string "[{") (errorString "unexpected EOF")) as [_ H].
  - vm_compute. right. right. left. reflexivity.
  - apply H. intros c name. discriminate.
Defined.

(** A successful [Org.Users]: three calls, the read being that of the body
    of the response. *)
Lemma single_round_trip_witness :
  let t := trace (run1 (denote1 (OpOrgUsers {| Id := 3; Name := "acme" |} grafana_ptr))
                    (answering 200 "200 OK" "[]")) in
  ∃ c method path query body req resp,
    t = [EvNewRequest c method path query body req None; EvDo c req resp None;
         EvReadAll (Body (response 200 "200 OK" "[]")) (list_byte_of_string "[]")
           None] ∧
    Body (response 200 "200 OK" "[]") = Body resp.
Proof.
  intros t.
  destruct (single_round_trip (User := unit) handler
              (OpOrgUsers {| Id := 3; Name := "acme" |} grafana_ptr)
              (answering 200 "200 OK" "[]")) as (_ & _ & _ & Hread & _).
  apply Hread. vm_compute. right. right. left. reflexivity.
Defined.

(** [NewOrg] against a server answering 404: the name is kept and the [Id]
    is 0. *)
Lemma NewOrg_keeps_name_witness :
  let out := run1 (Client.NewOrg grafana_ptr "acme") (answering 404 "404 Not Found" "") in
  Name (result out).1 = "acme" ∧ Id (result out).1 = 0.
Proof.
  intros out.
  destruct (NewOrg_keeps_name (User := unit) handler grafana_ptr "acme"
              (answering 404 "404 Not Found" "")) as [Hname Hid].
  split; [exact Hname|]. apply Hid.
  intros r data err HIn. vm_compute in HIn.
  destruct HIn as [HIn|[HIn|HIn]]; [discriminate HIn|discriminate HIn|exact HIn].
Defined.

(** The annotation found for ID 5 in [[{"id":1,...},{"id":5,...}]]. *)
Lemma Annotation_sound_witness :
  let w := answering 200 "200 OK" two_annotations in
  ID (annotation 5 "b") = 5 ∧
  In (annotation 5 "b") (elems (result (run1 (Client.Annotations grafana_ptr ∅) w)).1) ∧
  (result (run1 (Client.Annotations grafana_ptr ∅) w)).2 = None.
Proof.
  intros w.
  apply (Annotation_sound (User := unit) handler grafana_ptr 5 ∅ w (annotation 5 "b")).
  vm_compute. reflexivity.
Defined.

(** [Annotation] against a server answering 404 to the list request. *)
Lemma Annotation_propagates_error_witness :
  result (run1 (Client.Annotation grafana_ptr 5 ∅) (answering 404 "404 Not Found" ""))
  = (Annotation_zero, Some (errorString "404 Not Found")).
Proof.
  rewrite (Annotation_propagates_error (User := unit) handler grafana_ptr 5 ∅
             (answering 404 "404 Not Found" "") None (errorString "404 Not Found"))
    by (vm_compute; reflexivity).
  reflexivity.
Defined.

(** [AddUser] against a server answering 200 with a body that is not JSON:
    the call succeeds. *)
Lemma writes_ignore_body_witness :
  result (run1 (Org.AddUser {| Id := 3; Name := "acme" |} grafana_ptr "bob" "Admin")
            (answering 200 "200 OK" "not json"))
  = None.
Proof.
  destruct (writes_ignore_body (User := unit) handler {| Id := 3; Name := "acme" |}
              grafana_ptr "bob" "Admin" 0 0 (answering 200 "200 OK" "not json"))
    as (HAddUser & _ & _).
  apply (HAddUser (Body (response 200 "200 OK" "not json"))
           (list_byte_of_string "not json") None).
  vm_compute. right. right. left. reflexivity.
Defined.

(** [DeleteAnnotation] against a server answering 200 with
    [{"message":"Annotation deleted"}]. *)
Lemma message_operations_decode_witness :
  result (run1 (Client.DeleteAnnotation grafana_ptr 7)
            (answering 200 "200 OK" deleted_message))
  = ("Annotation deleted", None).
Proof.
  destruct (message_operations_decode (User := unit) handler grafana_ptr 7 None
              (answering 200 "200 OK" deleted_message)
              (Body (response 200 "200 OK" deleted_message))
              (list_byte_of_string deleted_message))
    as (_ & _ & HDelete & _).
  etransitivity.
  - apply HDelete. vm_compute. right. right. left. reflexivity.
  - vm_compute. reflexivity.
Defined.

(** [Orgs] against a server answering 200 with
    [[{"id":1,"name":"Main Org."}]]. *)
Lemma fetches_decode_witness :
  result (run1 (Client.Orgs grafana_ptr) (answering 200 "200 OK" one_org))
  = (Some [{| Id := 1; Name := "Main Org." |}], None).
Proof.
  destruct (fetches_decode (User := unit) handler {| Id := 3; Name := "acme" |}
              grafana_ptr ∅ 0 "" (answering 200 "200 OK" one_org)
              (Body (response 200 "200 OK" one_org)) (list_byte_of_string one_org))
    as (_ & _ & HOrgs & _).
  etransitivity.
  - apply HOrgs. vm_compute. right. right. left. reflexivity.
  - vm_compute. reflexivity.
Defined.

(** [NewOrg] against a server answering 200 with
    [{"orgId":9,"message":"Organization created"}]. *)
Lemma creations_return_id_witness :
  result (run1 (Client.NewOrg grafana_ptr "acme") (answering 200 "200 OK" org_created))
  = ({| Id := 9; Name := "acme" |}, None).
Proof.
  destruct (creations_return_id (User := unit) handler grafana_ptr None "acme"
              (answering 200 "200 OK" org_created)
              (Body (response 200 "200 OK" org_created))
              (list_byte_of_string org_created))
    as (_ & HNewOrg).
  etransitivity.
  - apply HNewOrg. vm_compute. right. right. left. reflexivity.
  - vm_compute. reflexivity.
Defined.

(** Annotation 7 and region 7 are requested at different paths. *)
Lemma id_paths_distinct_witness :
  let w := answering 200 "200 OK" "{}" in
  requested_path (run1 (Client.DeleteAnnotation grafana_ptr 7) w)
  ≠ requested_path (run1 (Client.DeleteAnnotationByRegionID grafana_ptr 7) w) ∧
  (7 : Z) = 7.
Proof.
  intros w.
  destruct (id_paths_distinct (User := unit) handler grafana_ptr 7 7 "acme" w w)
    as (Hsame & _ & _ & _ & Hregion & _).
  split; [exact Hregion|]. apply Hsame. reflexivity.
Defined.
End MoreExamples.

Section Lookup.
Context {User : Type} `{!JSON User} {Net : Type} (h : Handler Net).

(** X15.  Looking an annotation up by ID costs exactly the list request:
    whatever the ID and whatever comes back, [Annotation] makes the calls
    that [Annotations] makes with the same parameters and leaves the world
    as [Annotations] leaves it.  The ID is not sent to the server. *)
Theorem Annotation_calls_are_Annotations (c : ptr) (id : Z) (params : Values)
    (w : World Net) :
  trace (run h (Client.Annotation c id params) w)
  = trace (run h (Client.Annotations c params) w) ∧
  final (run h (Client.Annotation c id params) w)
  = final (run h (Client.Annotations c params) w).
Proof.
  unfold Client.Annotation. rewrite run_bind. unfold error.
  match goal with |- context [@run ?N ?A h ?p w] => generalize (@run N A h p w) end.
  intros [[[as_ e] w1] t1]. unfold trace, final. cbn.
  destruct e as [e|]; cbn; [by rewrite app_nil_r|].
  rewrite Annotation_range_find.
  destruct (List.find _ _); cbn; by rewrite app_nil_r.
Qed.
End Lookup.
